(** * chaosplt_auth.rpc: token issuance and lifecycle

    A shallow embedding of [chaosplt_auth/rpc.py]: the signer
    [NoAppJWTManager] and the service [AuthRPC].  The two classes talk
    to three collaborators that live outside the module: the token
    encoder of flask_jwt_extended, the user-claims hook inherited from
    [JWTManager], and the storage object handed to [AuthRPC].  Calls to
    them are kept as explicit requests in a small program type, so a
    property of the module can be stated for every behaviour of the
    collaborators and, for concrete runs, against a reference world. *)

From Stdlib Require Import ZArith NArith List String Ascii Bool Lia.
Import ListNotations.
Local Open Scope string_scope.
Local Open Scope Z_scope.

(** ** Python values *)

(** The values that travel through the module: identifiers are
    [Union[UUID, str]], configuration entries are scalars.  Floats are
    outside the model. *)
Inductive PyVal : Type :=
| PNone
| PBool (b : bool)
| PInt (z : Z)
| PStr (s : string)
| PUUID (n : N).

Inductive Exc : Type :=
| KeyError (key : string)
| AttributeError (attr : string)
| TypeError
| ValueError
| OverflowError
| Foreign (tag : string).

Inductive Result (A : Type) : Type :=
| Ok (a : A)
| Err (e : Exc).
Arguments Ok {A} a.
Arguments Err {A} e.

(** [bool(v)] *)
Definition truthy (v : PyVal) : bool :=
  match v with
  | PNone => false
  | PBool b => b
  | PInt z => negb (z =? 0)
  | PStr s => negb (String.eqb s "")
  | PUUID _ => true
  end.

(** [a == b] *)
Definition py_eqb (a b : PyVal) : bool :=
  match a, b with
  | PNone, PNone => true
  | PBool x, PBool y => Bool.eqb x y
  | PBool x, PInt y => (if x then 1 else 0) =? y
  | PInt x, PBool y => x =? (if y then 1 else 0)
  | PInt x, PInt y => x =? y
  | PStr x, PStr y => String.eqb x y
  | PUUID x, PUUID y => N.eqb x y
  | _, _ => false
  end.

(** *** [str(v)] *)

Definition digit_char (d : N) : ascii :=
  ascii_of_N (if N.ltb d 10 then 48 + d else 87 + d)%N.

(** The [k] low digits of [n] in base [b], most significant first. *)
Fixpoint digits (b : N) (k : nat) (n : N) (acc : string) : string :=
  match k with
  | O => acc
  | S k' => digits b k' (n / b)%N (String (digit_char (n mod b)%N) acc)
  end.

(** Number of decimal digits of [n] (one for zero). *)
Definition dec_width (n : N) : nat :=
  match n with
  | N0 => 1%nat
  | Npos _ => S (N.to_nat (N.log2 n / 3))
  end.

Fixpoint strip_zeros (s : string) : string :=
  match s with
  | String c r =>
      if Ascii.eqb c "0"%char
      then match r with EmptyString => s | _ => strip_zeros r end
      else s
  | EmptyString => s
  end.

Definition dec_of_N (n : N) : string :=
  strip_zeros (digits 10 (dec_width n) n "").

Definition dec_of_Z (z : Z) : string :=
  match z with
  | Zneg p => "-" ++ dec_of_N (Npos p)
  | _ => dec_of_N (Z.to_N z)
  end.

(** [str(UUID(int=n))]: 32 lower-case hexadecimal digits grouped
    8-4-4-4-12. *)
Definition uuid_str (n : N) : string :=
  let h := digits 16 32 n "" in
  substring 0 8 h ++ "-" ++ substring 8 4 h ++ "-" ++ substring 12 4 h
    ++ "-" ++ substring 16 4 h ++ "-" ++ substring 20 12 h.

Definition py_str (v : PyVal) : string :=
  match v with
  | PNone => "None"
  | PBool true => "True"
  | PBool false => "False"
  | PInt z => dec_of_Z z
  | PStr s => s
  | PUUID n => uuid_str n
  end.

(** *** [int(v)] *)

(** Strings are ASCII: the white space [int] skips is tab to carriage
    return and the blank. *)
Definition is_space (c : ascii) : bool :=
  let n := N_of_ascii c in
  ((9 <=? n) && (n <=? 13) || (n =? 32))%N.

Definition is_digit (c : ascii) : bool :=
  let n := N_of_ascii c in ((48 <=? n) && (n <=? 57))%N.

Fixpoint lstrip (s : string) : string :=
  match s with
  | String c r => if is_space c then lstrip r else s
  | EmptyString => s
  end.

Fixpoint all_space (s : string) : bool :=
  match s with
  | EmptyString => true
  | String c r => is_space c && all_space r
  end.

(** Digits with single underscores between them, then optional
    trailing white space; [acc] is the value read so far and [prev]
    tells whether the previous character was a digit. *)
Fixpoint int_digits (s : string) (acc : N) (prev : bool) : option N :=
  match s with
  | EmptyString => if prev then Some acc else None
  | String c r =>
      if is_digit c then int_digits r (10 * acc + (N_of_ascii c - 48))%N true
      else if Ascii.eqb c "_"%char then
        if prev then
          match r with
          | String d _ => if is_digit d then int_digits r acc false else None
          | EmptyString => None
          end
        else None
      else if prev && all_space s then Some acc
      else None
  end.

Definition int_of_string (s : string) : option Z :=
  match lstrip s with
  | String "-"%char r => option_map (fun n => - Z.of_N n) (int_digits r 0%N false)
  | String "+"%char r => option_map Z.of_N (int_digits r 0%N false)
  | r => option_map Z.of_N (int_digits r 0%N false)
  end.

Definition py_int (v : PyVal) : Result Z :=
  match v with
  | PNone => Err TypeError
  | PBool b => Ok (if b then 1 else 0)
  | PInt z => Ok z
  | PStr s => match int_of_string s with Some z => Ok z | None => Err ValueError end
  | PUUID n => Ok (Z.of_N n)
  end.

(** *** [datetime.timedelta] *)

Record timedelta : Type := { days : Z; seconds : Z }.

(** [timedelta(seconds=n)]: normalised to days and seconds, with the
    day count bounded by [999999999] in absolute value. *)
Definition timedelta_of_seconds (n : Z) : Result timedelta :=
  let d := n / 86400 in
  if (-999999999 <=? d) && (d <=? 999999999)
  then Ok {| days := d; seconds := n mod 86400 |}
  else Err OverflowError.

Definition total_seconds (d : timedelta) : Z := days d * 86400 + seconds d.

(** ** Dictionaries and objects *)

(** A [dict] with string keys, and an object seen through its
    attributes; both keep the first binding of a key. *)
Definition Dict (V : Type) : Type := list (string * V).

Fixpoint lookup {V : Type} (k : string) (d : Dict V) : option V :=
  match d with
  | [] => None
  | (k', v) :: d' => if String.eqb k k' then Some v else lookup k d'
  end.

Definition Claims : Type := Dict PyVal.
Definition Config : Type := Dict PyVal.
Definition PyObj : Type := Dict PyVal.

(** ** Collaborators *)

(** Keyword arguments of [flask_jwt_extended.tokens.encode_access_token]
    and [encode_refresh_token] as the signer fills them.  The constant
    [json_encoder=JSONEncoder] is left out. *)
Module AccessKw.
Record t : Type := {
  identity : PyVal;
  secret : PyVal;
  algorithm : PyVal;
  expires_delta : timedelta;
  fresh : bool;
  user_claims : Claims;
  csrf : bool;
  identity_claim_key : PyVal;
  user_claims_key : PyVal
}.
End AccessKw.

Module RefreshKw.
Record t : Type := {
  identity : PyVal;
  secret : PyVal;
  algorithm : PyVal;
  expires_delta : timedelta;
  user_claims : option Claims;
  csrf : bool;
  identity_claim_key : PyVal;
  user_claims_key : PyVal
}.
End RefreshKw.

(** What a method of [self.storage.access_token] hands back: [None],
    a record object, or a dictionary of record objects. *)
Inductive StoreAns : Type :=
| SNone
| SObj (o : PyObj)
| SDict (items : list (PyVal * PyObj)).

(** A call that leaves the module.  A storage call carries the method
    name and the positional arguments written at the call site. *)
Inductive Ext : Type :=
| user_claims_callback (identity : PyVal)
| encode_access_token (kw : AccessKw.t)
| encode_refresh_token (kw : RefreshKw.t)
| storage (method : string) (args : list PyVal).

Definition Ans (c : Ext) : Type :=
  match c with
  | user_claims_callback _ => Claims
  | encode_access_token _ => string
  | encode_refresh_token _ => string
  | storage _ _ => StoreAns
  end.

(** ** Programs *)

(** A method body: it returns, raises, or calls a collaborator and
    goes on with the answer.  Nothing in the module catches an
    exception, so a collaborator that raises ends the program. *)
Inductive Prog (R : Type) : Type :=
| Ret (r : R)
| Raise (e : Exc)
| Vis (c : Ext) (k : Ans c -> Prog R).
Arguments Ret {R} r.
Arguments Raise {R} e.
Arguments Vis {R} c k.

Fixpoint bind {A B : Type} (m : Prog A) (f : A -> Prog B) : Prog B :=
  match m with
  | Ret a => f a
  | Raise e => Raise e
  | Vis c k => Vis c (fun x => bind (k x) f)
  end.

Definition call (c : Ext) : Prog (Ans c) := Vis c (fun x => Ret x).

Definition lift {A : Type} (r : Result A) : Prog A :=
  match r with
  | Ok a => Ret a
  | Err e => Raise e
  end.

Declare Scope prog_scope.
Delimit Scope prog_scope with prog.
Notation "x <- m ;; k" := (bind m (fun x => k))
  (at level 61, m at next level, right associativity) : prog_scope.
Notation "m ;;; k" := (bind m (fun _ => k))
  (at level 61, right associativity) : prog_scope.
Local Open Scope prog_scope.

(** *** Running a program *)

(** A collaborator answers a call or raises, and may change the world. *)
Definition Handler (W : Type) : Type :=
  forall c : Ext, W -> Result (Ans c) * W.

Fixpoint run {W R : Type} (h : Handler W) (p : Prog R) (w : W)
  : Result R * W :=
  match p with
  | Ret r => (Ok r, w)
  | Raise e => (Err e, w)
  | Vis c k =>
      match h c w with
      | (Ok x, w') => run h (k x) w'
      | (Err e, w') => (Err e, w')
      end
  end.

(** The calls made, in order, including one that raised. *)
Fixpoint calls {W R : Type} (h : Handler W) (p : Prog R) (w : W)
  : list Ext :=
  match p with
  | Ret _ => []
  | Raise _ => []
  | Vis c k =>
      c :: match h c w with
           | (Ok x, w') => calls h (k x) w'
           | (Err _, _) => []
           end
  end.

Definition result {W R : Type} (h : Handler W) (p : Prog R) (w : W)
  : Result R := fst (run h p w).

Definition after {W R : Type} (h : Handler W) (p : Prog R) (w : W)
  : W := snd (run h p w).

(** ** NoAppJWTManager *)

(** [self.config]: the dictionary found under ["jwt"], or [None] when
    the service configuration has no such entry. *)
Record NoAppJWTManager : Type := { config : option Config }.

(** [self.config[key]] *)
Definition subscript (self : NoAppJWTManager) (key : string) : Result PyVal :=
  match config self with
  | None => Err TypeError
  | Some d =>
      match lookup key d with
      | Some v => Ok v
      | None => Err (KeyError key)
      end
  end.

Definition encode_key_callback (self : NoAppJWTManager) (identity : PyVal)
  : Result PyVal :=
  subscript self "secret_key".

Definition _user_identity_callback (self : NoAppJWTManager) (identity : PyVal)
  : PyVal :=
  identity.

Definition _create_refresh_token (self : NoAppJWTManager) (identity : PyVal)
  : Prog string :=
  lifetime <- lift (subscript self "refresh_token_expires") ;;
  secs <- lift (py_int lifetime) ;;
  expires_delta <- lift (timedelta_of_seconds secs) ;;
  flag <- lift (subscript self "user_claims_in_refresh_token") ;;
  user_claims <- (if truthy flag
                  then c <- call (user_claims_callback identity) ;; Ret (Some c)
                  else Ret None) ;;
  secret <- lift (encode_key_callback self identity) ;;
  algorithm <- lift (subscript self "algorithm") ;;
  identity_claim_key <- lift (subscript self "identity_claim_key") ;;
  user_claims_key <- lift (subscript self "user_claims_key") ;;
  call (encode_refresh_token
          {| RefreshKw.identity := _user_identity_callback self identity;
             RefreshKw.secret := secret;
             RefreshKw.algorithm := algorithm;
             RefreshKw.expires_delta := expires_delta;
             RefreshKw.user_claims := user_claims;
             RefreshKw.csrf := false;
             RefreshKw.identity_claim_key := identity_claim_key;
             RefreshKw.user_claims_key := user_claims_key |}).

Definition _create_access_token (self : NoAppJWTManager) (identity : PyVal)
  : Prog string :=
  lifetime <- lift (subscript self "access_token_expires") ;;
  secs <- lift (py_int lifetime) ;;
  expires_delta <- lift (timedelta_of_seconds secs) ;;
  secret <- lift (encode_key_callback self identity) ;;
  algorithm <- lift (subscript self "algorithm") ;;
  user_claims <- call (user_claims_callback identity) ;;
  identity_claim_key <- lift (subscript self "identity_claim_key") ;;
  user_claims_key <- lift (subscript self "user_claims_key") ;;
  call (encode_access_token
          {| AccessKw.identity := _user_identity_callback self identity;
             AccessKw.secret := secret;
             AccessKw.algorithm := algorithm;
             AccessKw.expires_delta := expires_delta;
             AccessKw.fresh := false;
             AccessKw.user_claims := user_claims;
             AccessKw.csrf := false;
             AccessKw.identity_claim_key := identity_claim_key;
             AccessKw.user_claims_key := user_claims_key |}).

(** ** AuthRPC *)

(** The message [chaosplt_grpc.auth.message.AccessToken]. *)
Module AccessToken.
Record t : Type := {
  id : PyVal;
  user_id : PyVal;
  name : PyVal;
  access_token : PyVal;
  refresh_token : PyVal;
  revoked : PyVal;
  issued_on : PyVal;
  last_used_on : PyVal;
  jti : PyVal
}.
End AccessToken.

Record AuthRPC : Type := { jwt : NoAppJWTManager }.

(** [AuthRPC.__init__]: [self.jwt = NoAppJWTManager(config.get("jwt"))] *)
Definition AuthRPC_init (cfg : Dict Config) : AuthRPC :=
  {| jwt := {| config := lookup "jwt" cfg |} |}.

(** [token.attr] *)
Definition getattr (token : StoreAns) (attr : string) : Result PyVal :=
  match token with
  | SObj o =>
      match lookup attr o with
      | Some v => Ok v
      | None => Err (AttributeError attr)
      end
  | _ => Err (AttributeError attr)
  end.

(** [not token] is false for a record object. *)
Definition ans_truthy (token : StoreAns) : bool :=
  match token with
  | SNone => false
  | SObj _ => true
  | SDict items => negb (Nat.eqb (List.length items) 0)
  end.

Definition rbind {A B : Type} (r : Result A) (f : A -> Result B) : Result B :=
  match r with
  | Ok a => f a
  | Err e => Err e
  end.

(** The [AccessToken(id=str(token.id), ...)] expression that every
    method of the service spells out, with its keyword arguments
    evaluated in the order written.  The timestamp is read from the
    attribute [issed_on]. *)
Definition message_of (token : StoreAns) : Result AccessToken.t :=
  rbind (getattr token "id") (fun id =>
  rbind (getattr token "user_id") (fun user_id =>
  rbind (getattr token "name") (fun name =>
  rbind (getattr token "access_token") (fun access_token =>
  rbind (getattr token "refresh_token") (fun refresh_token =>
  rbind (getattr token "revoked") (fun revoked =>
  rbind (getattr token "issed_on") (fun issued_on =>
  rbind (getattr token "last_used_on") (fun last_used_on =>
  rbind (getattr token "jti") (fun jti =>
  Ok {| AccessToken.id := PStr (py_str id);
        AccessToken.user_id := PStr (py_str user_id);
        AccessToken.name := name;
        AccessToken.access_token := access_token;
        AccessToken.refresh_token := refresh_token;
        AccessToken.revoked := revoked;
        AccessToken.issued_on := issued_on;
        AccessToken.last_used_on := last_used_on;
        AccessToken.jti := jti |}))))))))).

Definition create_access_token (self : AuthRPC)
  (user_id name access_token refresh_token : PyVal) : Prog AccessToken.t :=
  access_token <- (if negb (truthy access_token)
                   then t <- _create_access_token (jwt self) (PStr (py_str user_id)) ;;
                        Ret (PStr t)
                   else Ret access_token) ;;
  refresh_token <- (if negb (truthy refresh_token)
                    then t <- _create_refresh_token (jwt self) (PStr (py_str user_id)) ;;
                         Ret (PStr t)
                    else Ret refresh_token) ;;
  token <- call (storage "create" [name; user_id; access_token; refresh_token]) ;;
  lift (message_of token).

Definition delete_access_token (self : AuthRPC) (user_id token_id : PyVal)
  : Prog unit :=
  call (storage "delete" [user_id; token_id]) ;;; Ret tt.

Definition revoke_access_token (self : AuthRPC) (user_id token_id : PyVal)
  : Prog unit :=
  call (storage "revoke" [user_id; token_id]) ;;; Ret tt.

(** The tail shared by the three single-record lookups. *)
Definition found (token : StoreAns) : Prog (option AccessToken.t) :=
  if negb (ans_truthy token) then Ret None
  else m <- lift (message_of token) ;; Ret (Some m).

Definition get (self : AuthRPC) (token_id : PyVal)
  : Prog (option AccessToken.t) :=
  token <- call (storage "get" [token_id]) ;;
  found token.

Definition get_by_name (self : AuthRPC) (user_id name : PyVal)
  : Prog (option AccessToken.t) :=
  token <- call (storage "get_by_name" [user_id; name]) ;;
  found token.

Definition get_by_jti (self : AuthRPC) (user_id jti : PyVal)
  : Prog (option AccessToken.t) :=
  token <- call (storage "get_by_jti" [user_id; jti]) ;;
  found token.

(** [tokens.values()] *)
Definition values (tokens : StoreAns) : Result (list PyObj) :=
  match tokens with
  | SDict items => Ok (map snd items)
  | _ => Err (AttributeError "values")
  end.

(** The [for] loop of [get_by_user]: messages are appended in the
    order of the values, and the first failing one ends the loop. *)
Fixpoint messages (tokens : list PyObj) : Result (list AccessToken.t) :=
  match tokens with
  | [] => Ok []
  | token :: rest =>
      rbind (message_of (SObj token)) (fun m =>
      rbind (messages rest) (fun ms => Ok (m :: ms)))
  end.

Definition get_by_user (self : AuthRPC) (user_id : PyVal)
  : Prog (list AccessToken.t) :=
  tokens <- call (storage "get_by_user" [user_id]) ;;
  vals <- lift (values tokens) ;;
  lift (messages vals).

(** ** A reference world *)

(** The persisted unit of the data model.  Identifiers, tokens and
    time stamps are Python values; the flag is a boolean. *)
Module AccessTokenRecord.
Record t : Type := {
  id : PyVal;
  user_id : PyVal;
  name : PyVal;
  access_token : PyVal;
  refresh_token : PyVal;
  jti : PyVal;
  revoked : bool;
  issued_on : PyVal;
  last_used_on : PyVal
}.
End AccessTokenRecord.
Definition Row : Type := AccessTokenRecord.t.

(** What the encoder was asked to sign. *)
Inductive Request : Type :=
| access_request (kw : AccessKw.t)
| refresh_request (kw : RefreshKw.t).

(** A token the encoder produced: its identifier, the time of
    signing and the request it answers. *)
Record Signed : Type := {
  signed_jti : string;
  signed_at : Z;
  signed_request : Request
}.

Record World : Type := {
  clock : Z;                         (* current time, seconds *)
  counter : N;                       (* source of fresh identifiers *)
  loader : Claims;                   (* answer of the user-claims hook *)
  issued : list (string * Signed);   (* tokens signed so far *)
  rows : list Row                    (* the stored records *)
}.

(** *** The encoder *)

(** The encoder of the reference world accepts every request.  It
    draws a fresh [jti], and returns an opaque string that the world
    remembers together with what it stands for, so that the token can
    be decoded later.  How the claims are laid out inside the token is
    left to the encoder. *)
Definition sign (req : Request) (w : World) : Result string * World :=
  let uid := uuid_str (counter w) in
  let token := "jwt." ++ uid in
  (Ok token,
   {| clock := clock w; counter := N.succ (counter w); loader := loader w;
      issued := (token, {| signed_jti := uid; signed_at := clock w;
                           signed_request := req |}) :: issued w;
      rows := rows w |}).

(** What a token of this world stands for. *)
Definition decode (w : World) (token : PyVal) : option Signed :=
  match token with
  | PStr s => lookup s (issued w)
  | _ => None
  end.


(** Modelled from the spec: the encoder is not among the sources.  An
    access token embeds the custom claims it is given under the claim
    key it is given; a refresh token embeds them when it is given
    some, and none otherwise. *)
Definition custom_claims (s : Signed) : option (PyVal * Claims) :=
  match signed_request s with
  | access_request kw =>
      Some (AccessKw.user_claims_key kw, AccessKw.user_claims kw)
  | refresh_request kw =>
      match RefreshKw.user_claims kw with
      | Some c => Some (RefreshKw.user_claims_key kw, c)
      | None => None
      end
  end.

(** *** The store *)

Definition with_rows (w : World) (rs : list Row) : World :=
  {| clock := clock w; counter := counter w; loader := loader w;
     issued := issued w; rows := rs |}.

Module TokenStore.
Import AccessTokenRecord.

(** Modelled from the spec: the record object the store hands out
    (its class is not among the sources) shows the fields of the data
    model as attributes; [stamp] is the attribute that carries the
    issuance time, [issued_on] in the data model. *)
Definition object_of (stamp : string) (r : Row) : PyObj :=
  [("id", id r); ("user_id", user_id r); ("name", name r);
   ("access_token", access_token r); ("refresh_token", refresh_token r);
   ("jti", jti r); ("revoked", PBool (revoked r));
   (stamp, issued_on r); ("last_used_on", last_used_on r)].

Definition has_id (token_id : PyVal) (r : Row) : bool :=
  py_eqb (id r) token_id.

Definition owned_by (u : PyVal) (r : Row) : bool :=
  py_eqb (user_id r) u.

Definition answer (stamp : string) (r : option Row) : StoreAns :=
  match r with
  | Some r => SObj (object_of stamp r)
  | None => SNone
  end.

(** Modelled from the spec: [get(token_id) -> record|absent], the
    record with that primary identifier. *)
Definition get (stamp : string) (token_id : PyVal) (w : World) : StoreAns :=
  answer stamp (find (has_id token_id) (rows w)).

(** Modelled from the spec: [get_by_name(user_id, name) ->
    record|absent], the record of that user with that name. *)
Definition get_by_name (stamp : string) (u n : PyVal) (w : World) : StoreAns :=
  answer stamp
    (find (fun r => owned_by u r && py_eqb (name r) n) (rows w)).

(** Modelled from the spec: [get_by_jti(user_id, jti) ->
    record|absent], the record with that token identifier, scoped to
    the user. *)
Definition get_by_jti (stamp : string) (u j : PyVal) (w : World) : StoreAns :=
  answer stamp
    (find (fun r => owned_by u r && py_eqb (jti r) j) (rows w)).

(** Modelled from the spec: [get_by_user(user_id) -> collection of
    record], all the records the user owns, keyed by identifier. *)
Definition get_by_user (stamp : string) (u : PyVal) (w : World) : StoreAns :=
  SDict (map (fun r => (id r, object_of stamp r))
           (filter (owned_by u) (rows w))).

Definition set_revoked (r : Row) : Row :=
  {| id := id r; user_id := user_id r; name := name r;
     access_token := access_token r; refresh_token := refresh_token r;
     jti := jti r; revoked := true;
     issued_on := issued_on r; last_used_on := last_used_on r |}.

(** Modelled from the spec: [revoke(user_id, token_id)] sets
    [revoked] on the identified record of that user, and does
    nothing, silently, when there is none. *)
Definition revoke (u token_id : PyVal) (w : World) : World :=
  with_rows w
    (map (fun r => if has_id token_id r && owned_by u r
                   then set_revoked r else r) (rows w)).

(** Modelled from the spec: [delete(user_id, token_id)] removes the
    identified record of that user, and does nothing, silently, when
    there is none. *)
Definition delete (u token_id : PyVal) (w : World) : World :=
  with_rows w
    (filter (fun r => negb (has_id token_id r && owned_by u r)) (rows w)).

(** Modelled from the spec: [create] persists a record for the four
    values the service passes.  The [jti] is the one found in the
    claims of the access token; the identifier is fresh, [revoked] is
    false and [issued_on] is the current time.  A second record with
    the same user and name, or the same [jti], is a conflict; a token
    that does not decode is refused. *)
Definition create (stamp : string) (n u at_ rt : PyVal) (w : World)
  : Result StoreAns * World :=
  match decode w at_ with
  | None => (Err (Foreign "DecodeError"), w)
  | Some signed =>
      let j := PStr (signed_jti signed) in
      if existsb (fun r => owned_by u r && py_eqb (name r) n
                           || py_eqb (jti r) j) (rows w)
      then (Err (Foreign "Conflict"), w)
      else
        let r := {| id := PStr (uuid_str (counter w));
                    user_id := u; name := n;
                    access_token := at_; refresh_token := rt;
                    jti := j; revoked := false;
                    issued_on := PInt (clock w);
                    last_used_on := PNone |} in
        (Ok (SObj (object_of stamp r)),
         {| clock := clock w; counter := N.succ (counter w);
            loader := loader w; issued := issued w;
            rows := (rows w ++ [r])%list |})
  end.

(** Modelled from the spec: the methods of the store object, called
    by name with positional arguments. *)
Definition dispatch (stamp : string) (method : string) (args : list PyVal)
  (w : World) : Result StoreAns * World :=
  if String.eqb method "create" then
    match args with
    | [n; u; a; r] => create stamp n u a r w
    | _ => (Err TypeError, w)
    end
  else if String.eqb method "get" then
    match args with
    | [t] => (Ok (get stamp t w), w)
    | _ => (Err TypeError, w)
    end
  else if String.eqb method "get_by_name" then
    match args with
    | [u; n] => (Ok (get_by_name stamp u n w), w)
    | _ => (Err TypeError, w)
    end
  else if String.eqb method "get_by_jti" then
    match args with
    | [u; j] => (Ok (get_by_jti stamp u j w), w)
    | _ => (Err TypeError, w)
    end
  else if String.eqb method "get_by_user" then
    match args with
    | [u] => (Ok (get_by_user stamp u w), w)
    | _ => (Err TypeError, w)
    end
  else if String.eqb method "revoke" then
    match args with
    | [u; t] => (Ok SNone, revoke u t w)
    | _ => (Err TypeError, w)
    end
  else if String.eqb method "delete" then
    match args with
    | [u; t] => (Ok SNone, delete u t w)
    | _ => (Err TypeError, w)
    end
  else (Err (AttributeError method), w).
End TokenStore.

(** The collaborators of the reference world: the hook answers with
    the claims of the world, the encoder and the store are the ones
    above. *)
Definition world (stamp : string) : Handler World :=
  fun c =>
    match c return World -> Result (Ans c) * World with
    | user_claims_callback _ => fun w => (Ok (loader w), w)
    | encode_access_token kw => sign (access_request kw)
    | encode_refresh_token kw => sign (refresh_request kw)
    | storage method args => TokenStore.dispatch stamp method args
    end.

(** The world of the data model, where the time stamp of a record is
    its attribute [issued_on]. *)
Definition spec_world : Handler World := world "issued_on".

(** ** Sample data *)

Definition jwt_config : Config :=
  [("secret_key", PStr "s3cr3t"); ("algorithm", PStr "HS256");
   ("access_token_expires", PInt 900);
   ("refresh_token_expires", PStr "2592000");
   ("identity_claim_key", PStr "identity");
   ("user_claims_key", PStr "user_claims");
   ("user_claims_in_refresh_token", PBool false)].

Definition service : AuthRPC := AuthRPC_init [("jwt", jwt_config)].

Definition w0 : World :=
  {| clock := 1000; counter := 1%N; loader := [];
     issued := []; rows := [] |}.

(** A configuration that lets custom claims into refresh tokens, and a
    world whose hook has claims to give. *)
Definition jwt_config_claims : Config :=
  [("secret_key", PStr "s3cr3t"); ("algorithm", PStr "HS256");
   ("access_token_expires", PInt 900);
   ("refresh_token_expires", PStr "2592000");
   ("identity_claim_key", PStr "identity");
   ("user_claims_key", PStr "user_claims");
   ("user_claims_in_refresh_token", PBool true)].

Definition signer_claims : NoAppJWTManager :=
  {| config := Some jwt_config_claims |}.

Definition w0_claims : World :=
  {| clock := 1000; counter := 1%N; loader := [("role", PStr "admin")];
     issued := []; rows := [] |}.

(** A store holding one record, owned by [u2]. *)
Definition r1 : Row :=
  {| AccessTokenRecord.id := PStr "t1";
     AccessTokenRecord.user_id := PStr "u2";
     AccessTokenRecord.name := PStr "phone";
     AccessTokenRecord.access_token := PStr "a1";
     AccessTokenRecord.refresh_token := PStr "f1";
     AccessTokenRecord.jti := PStr "j1";
     AccessTokenRecord.revoked := false;
     AccessTokenRecord.issued_on := PInt 10;
     AccessTokenRecord.last_used_on := PNone |}.

Definition r2 : Row :=
  {| AccessTokenRecord.id := PStr "t2";
     AccessTokenRecord.user_id := PStr "u2";
     AccessTokenRecord.name := PStr "tablet";
     AccessTokenRecord.access_token := PStr "a2";
     AccessTokenRecord.refresh_token := PStr "f2";
     AccessTokenRecord.jti := PStr "j2";
     AccessTokenRecord.revoked := true;
     AccessTokenRecord.issued_on := PInt 20;
     AccessTokenRecord.last_used_on := PInt 30 |}.

Definition w1 : World := with_rows w0 [r1; r2].

(** ** Properties of programs *)

(** Every call a program can make, whatever the answers, satisfies [P]. *)
Fixpoint sat {R : Type} (P : Ext -> Prop) (p : Prog R) : Prop :=
  match p with
  | Ret _ => True
  | Raise _ => True
  | Vis c k => P c /\ forall x, sat P (k x)
  end.

(** The lifetime the signer computes from a configuration entry:
    [timedelta(seconds=int(self.config[key]))]. *)
Definition lifetime (self : NoAppJWTManager) (key : string) : Result timedelta :=
  rbind (subscript self key) (fun v =>
  rbind (py_int v) timedelta_of_seconds).

(** The identity a call to the signing machinery carries, if it is one. *)
Definition signed_identity (c : Ext) : option PyVal :=
  match c with
  | user_claims_callback i => Some i
  | encode_access_token kw => Some (AccessKw.identity kw)
  | encode_refresh_token kw => Some (RefreshKw.identity kw)
  | storage _ _ => None
  end.

(** Calls to the store. *)
Definition is_storage (c : Ext) : bool :=
  match c with
  | storage _ _ => true
  | _ => false
  end.

(** ** The claims as the specification words them, where the code
    departs from the wording *)

(** The service hands the store a fifth value, the [jti] found in the
    claims of the access token it persists. *)
Definition persists_with_extracted_jti (h : Handler World) (p : Prog AccessToken.t)
  (w : World) : Prop :=
  exists n u a r j,
    In (storage "create" [n; u; a; r; PStr j]) (calls h p w)
    /\ option_map signed_jti (decode (after h p w) a) = Some j.

(** The signer refuses the empty identity. *)
Definition rejects_empty_identity (h : Handler World) (self : NoAppJWTManager)
  (w : World) : Prop :=
  (exists e, result h (_create_access_token self (PStr "")) w = Err e)
  \/ (exists e, result h (_create_refresh_token self (PStr "")) w = Err e).

(** After a delete that returned, the record is gone for [get] and for
    [get_by_user], whoever the user and whatever the token. *)
Definition deletion_is_final (h : Handler World) (self : AuthRPC)
  (u t : PyVal) (w : World) : Prop :=
  result h (delete_access_token self u t) w = Ok tt ->
  let w' := after h (delete_access_token self u t) w in
  result h (get self t) w' = Ok None
  /\ forall ms m, result h (get_by_user self u) w' = Ok ms ->
                  In m ms -> AccessToken.id m <> PStr (py_str t).

(** The two [if not ...] statements of [create_access_token], each
    taken alone: the token the service goes on with. *)
Definition access_token_or_signed (self : AuthRPC) (user_id access_token : PyVal)
  : Prog PyVal :=
  if negb (truthy access_token)
  then t <- _create_access_token (jwt self) (PStr (py_str user_id)) ;; Ret (PStr t)
  else Ret access_token.

Definition refresh_token_or_signed (self : AuthRPC) (user_id refresh_token : PyVal)
  : Prog PyVal :=
  if negb (truthy refresh_token)
  then t <- _create_refresh_token (jwt self) (PStr (py_str user_id)) ;; Ret (PStr t)
  else Ret refresh_token.

(** The keyword arguments the signer builds, given what it read from
    the configuration and the answer of the user-claims hook. *)
Definition access_kwargs (i : PyVal) (d : timedelta) (s al ick uck : PyVal)
  (c : Claims) : AccessKw.t :=
  {| AccessKw.identity := i; AccessKw.secret := s; AccessKw.algorithm := al;
     AccessKw.expires_delta := d; AccessKw.fresh := false;
     AccessKw.user_claims := c; AccessKw.csrf := false;
     AccessKw.identity_claim_key := ick; AccessKw.user_claims_key := uck |}.

Definition refresh_kwargs (i : PyVal) (d : timedelta) (s al ick uck : PyVal)
  (c : option Claims) : RefreshKw.t :=
  {| RefreshKw.identity := i; RefreshKw.secret := s; RefreshKw.algorithm := al;
     RefreshKw.expires_delta := d; RefreshKw.user_claims := c;
     RefreshKw.csrf := false;
     RefreshKw.identity_claim_key := ick; RefreshKw.user_claims_key := uck |}.

(** ** More sample data *)

(** A configuration whose access lifetime is not a number, and one
    that lacks the key of the custom claims. *)
Definition jwt_config_bad_lifetime : Config :=
  [("secret_key", PStr "s3cr3t"); ("algorithm", PStr "HS256");
   ("access_token_expires", PStr "15m");
   ("refresh_token_expires", PStr "2592000");
   ("identity_claim_key", PStr "identity");
   ("user_claims_key", PStr "user_claims");
   ("user_claims_in_refresh_token", PBool false)].

Definition jwt_config_no_claims_key : Config :=
  [("secret_key", PStr "s3cr3t"); ("algorithm", PStr "HS256");
   ("access_token_expires", PInt 900);
   ("refresh_token_expires", PInt 2592000);
   ("identity_claim_key", PStr "identity");
   ("user_claims_in_refresh_token", PBool false)].

(** Collaborators that keep no state: the hook has no claims, the
    encoders return fixed strings and the store answers [None] to
    everything. *)
Definition null_world : Handler unit :=
  fun c =>
    match c return unit -> Result (Ans c) * unit with
    | user_claims_callback _ => fun w => (Ok [], w)
    | encode_access_token _ => fun w => (Ok "a", w)
    | encode_refresh_token _ => fun w => (Ok "r", w)
    | storage _ _ => fun w => (Ok SNone, w)
    end.

(** A record object as the service reads it, with the time stamp
    under [issed_on]. *)
Definition o1 : PyObj := TokenStore.object_of "issed_on" r1.
Definition o2 : PyObj := TokenStore.object_of "issed_on" r2.

(** The attributes [message_of] reads, in the order it reads them. *)
Definition message_attributes : list string :=
  ["id"; "user_id"; "name"; "access_token"; "refresh_token"; "revoked";
   "issed_on"; "last_used_on"; "jti"].

(** The first of them that an object lacks. *)
Definition first_missing (o : PyObj) : option string :=
  find (fun a => match lookup a o with Some _ => false | None => true end)
    message_attributes.

(** ** setup.py *)

(** [s.startswith(p)] *)
Definition startswith (s p : string) : bool := String.prefix p s.

(** The white space [str.strip] removes, on ASCII strings. *)
Definition py_isspace (c : ascii) : bool :=
  let n := N_of_ascii c in
  ((9 <=? n) && (n <=? 13) || (28 <=? n) && (n <=? 32))%N.

Fixpoint str_lstrip (s : string) : string :=
  match s with
  | String c r => if py_isspace c then str_lstrip r else s
  | EmptyString => EmptyString
  end.

Fixpoint str_rstrip (s : string) : string :=
  match s with
  | EmptyString => EmptyString
  | String c r =>
      match str_rstrip r with
      | EmptyString => if py_isspace c then EmptyString else String c EmptyString
      | r' => String c r'
      end
  end.

(** [s.strip()] *)
Definition strip (s : string) : string := str_rstrip (str_lstrip s).

(** [s.replace(old, new)] for a pattern [old] of one character. *)
Fixpoint replace (s : string) (old : ascii) (new : string) : string :=
  match s with
  | EmptyString => EmptyString
  | String c r =>
      if Ascii.eqb c old then new ++ replace r old new
      else String c (replace r old new)
  end.

Fixpoint drop (n : nat) (s : string) : string :=
  match n, s with
  | S n', String _ r => drop n' r
  | _, _ => s
  end.

(** The text before and after the leftmost occurrence of [sep]. *)
Fixpoint partition (sep s : string) : option (string * string) :=
  if String.prefix sep s then Some (EmptyString, drop (String.length sep) s)
  else match s with
       | EmptyString => None
       | String c r =>
           match partition sep r with
           | Some (a, b) => Some (String c a, b)
           | None => None
           end
       end.

(** [s.split(sep, 1)] for a non-empty [sep]. *)
Definition split1 (s sep : string) : list string :=
  match partition sep s with
  | Some (a, b) => [a; b]
  | None => [s]
  end.

(** [get_version_from_package], on the lines of
    [chaosplt_auth/__init__.py] as iterating over the file yields them.
    The unpacking [token, version = ...] needs two parts; falling off
    the loop returns [None]. *)
Fixpoint get_version_from_package (lines : list string) : Result (option string) :=
  match lines with
  | [] => Ok None
  | line :: rest =>
      if startswith line "__version__" then
        match split1 line " = " with
        | [token; version] => Ok (Some (strip (replace version "'"%char "")))
        | _ => Err ValueError
        end
      else get_version_from_package rest
  end.

(** [[l.strip() for l in f if not l.startswith('#')]], the reading of
    [requirements.txt] and of [requirements-dev.txt]. *)
Definition requirements (lines : list string) : list string :=
  map strip (filter (fun l => negb (startswith l "#")) lines).

(** * Theorems *)

(** ** Running programs *)

Section Runs.
Context {W : Type} (h : Handler W).

Lemma run_bind {A B : Type} (m : Prog A) (f : A -> Prog B) (w : W) :
  run h (bind m f) w =
  match run h m w with
  | (Ok a, w') => run h (f a) w'
  | (Err e, w') => (Err e, w')
  end.
Proof.
  revert w; induction m as [a | e | c k IH]; intros w; simpl; auto.
  destruct (h c w) as [[x | e] w']; auto.
Qed.

Lemma calls_bind {A B : Type} (m : Prog A) (f : A -> Prog B) (w : W) :
  calls h (bind m f) w =
  (calls h m w ++
   match run h m w with
   | (Ok a, w') => calls h (f a) w'
   | (Err _, _) => []
   end)%list.
Proof.
  revert w; induction m as [a | e | c k IH]; intros w; simpl; auto.
  destruct (h c w) as [[x | e] w']; simpl; auto.
  now rewrite IH.
Qed.

Lemma run_lift {A : Type} (r : Result A) (w : W) :
  run h (lift r) w = (r, w).
Proof. now destruct r. Qed.

Lemma calls_lift {A : Type} (r : Result A) (w : W) :
  calls h (lift r) w = [].
Proof. now destruct r. Qed.

Lemma sat_calls {R : Type} (P : Ext -> Prop) (p : Prog R) :
  sat P p -> forall w, Forall P (calls h p w).
Proof.
  induction p as [a | e | c k IH]; simpl; intros Hs w; auto.
  destruct Hs as [Hc Hk]. constructor; auto.
  destruct (h c w) as [[x | e] w']; auto.
Qed.
End Runs.

Lemma sat_bind {A B : Type} (P : Ext -> Prop) (m : Prog A) (f : A -> Prog B) :
  sat P m -> (forall a, sat P (f a)) -> sat P (bind m f).
Proof.
  induction m as [a | e | c k IH]; simpl; intros Hm Hf; auto.
  destruct Hm as [Hc Hk]. split; auto.
Qed.

Lemma sat_lift {A : Type} (P : Ext -> Prop) (r : Result A) : sat P (lift r).
Proof. now destruct r. Qed.

Lemma sat_impl {R : Type} (P Q : Ext -> Prop) (p : Prog R) :
  (forall c, P c -> Q c) -> sat P p -> sat Q p.
Proof.
  intros HPQ; induction p as [a | e | c k IH]; simpl; auto.
  intros [Hc Hk]; split; auto.
Qed.

Ltac sat_steps :=
  repeat first
    [ apply sat_lift
    | apply sat_bind; [ | intros ? ]
    | progress simpl ].

(** Membership in a list that computes. *)
Ltac in_list := vm_compute; repeat first [ left; reflexivity | right ].

(** ** The calls of the signer *)

Lemma access_signer_identity (self : NoAppJWTManager) (i : PyVal) :
  sat (fun c => signed_identity c = Some i) (_create_access_token self i).
Proof.
  unfold _create_access_token, call.
  sat_steps; auto.
Qed.

Lemma refresh_signer_identity (self : NoAppJWTManager) (i : PyVal) :
  sat (fun c => signed_identity c = Some i) (_create_refresh_token self i).
Proof.
  unfold _create_refresh_token, call.
  sat_steps; auto.
  destruct (truthy _); sat_steps; auto.
Qed.

(** ** The steps of [create_access_token] *)

Lemma create_access_token_steps (self : AuthRPC) (u n a r : PyVal) :
  create_access_token self u n a r =
  (a' <- access_token_or_signed self u a ;;
   r' <- refresh_token_or_signed self u r ;;
   token <- call (storage "create" [n; u; a'; r']) ;;
   lift (message_of token)).
Proof. reflexivity. Qed.

Section Steps.
Context {W : Type} (h : Handler W).

Lemma create_access_token_run (self : AuthRPC) (u n a r : PyVal) (w : W) :
  run h (create_access_token self u n a r) w =
  match run h (access_token_or_signed self u a) w with
  | (Err e, w1) => (Err e, w1)
  | (Ok a', w1) =>
      match run h (refresh_token_or_signed self u r) w1 with
      | (Err e, w2) => (Err e, w2)
      | (Ok r', w2) =>
          match h (storage "create" [n; u; a'; r']) w2 with
          | (Err e, w3) => (Err e, w3)
          | (Ok token, w3) => (message_of token, w3)
          end
      end
  end.
Proof.
  rewrite create_access_token_steps, run_bind.
  destruct (run h (access_token_or_signed self u a) w) as [[a' | e] w1]; auto.
  rewrite run_bind.
  destruct (run h (refresh_token_or_signed self u r) w1) as [[r' | e] w2]; auto.
  simpl.
  destruct (h (storage "create" [n; u; a'; r']) w2) as [[token | e] w3]; auto.
  apply run_lift.
Qed.

Lemma create_access_token_calls (self : AuthRPC) (u n a r : PyVal) (w : W) :
  calls h (create_access_token self u n a r) w =
  (calls h (access_token_or_signed self u a) w ++
   match run h (access_token_or_signed self u a) w with
   | (Err _, _) => []
   | (Ok a', w1) =>
       calls h (refresh_token_or_signed self u r) w1 ++
       match run h (refresh_token_or_signed self u r) w1 with
       | (Err _, _) => []
       | (Ok r', w2) => [storage "create" [n; u; a'; r']]
       end
   end)%list.
Proof.
  rewrite create_access_token_steps, calls_bind.
  destruct (run h (access_token_or_signed self u a) w) as [[a' | e] w1]; auto.
  rewrite calls_bind.
  destruct (run h (refresh_token_or_signed self u r) w1) as [[r' | e] w2]; auto.
  simpl.
  destruct (h (storage "create" [n; u; a'; r']) w2) as [[token | e] w3]; auto.
  now rewrite calls_lift.
Qed.

Lemma access_token_or_signed_run (self : AuthRPC) (u a : PyVal) (w : W) :
  run h (access_token_or_signed self u a) w =
  if truthy a then (Ok a, w)
  else match run h (_create_access_token (jwt self) (PStr (py_str u))) w with
       | (Ok t, w') => (Ok (PStr t), w')
       | (Err e, w') => (Err e, w')
       end.
Proof.
  unfold access_token_or_signed.
  destruct (truthy a); simpl; auto.
  now rewrite run_bind.
Qed.

Lemma refresh_token_or_signed_run (self : AuthRPC) (u r : PyVal) (w : W) :
  run h (refresh_token_or_signed self u r) w =
  if truthy r then (Ok r, w)
  else match run h (_create_refresh_token (jwt self) (PStr (py_str u))) w with
       | (Ok t, w') => (Ok (PStr t), w')
       | (Err e, w') => (Err e, w')
       end.
Proof.
  unfold refresh_token_or_signed.
  destruct (truthy r); simpl; auto.
  now rewrite run_bind.
Qed.
End Steps.

Lemma access_token_or_signed_identity (self : AuthRPC) (u a : PyVal) :
  sat (fun c => signed_identity c = Some (PStr (py_str u)))
      (access_token_or_signed self u a).
Proof.
  unfold access_token_or_signed.
  destruct (truthy a); simpl; auto.
  apply sat_bind; [apply access_signer_identity | simpl; auto].
Qed.

Lemma refresh_token_or_signed_identity (self : AuthRPC) (u r : PyVal) :
  sat (fun c => signed_identity c = Some (PStr (py_str u)))
      (refresh_token_or_signed self u r).
Proof.
  unfold refresh_token_or_signed.
  destruct (truthy r); simpl; auto.
  apply sat_bind; [apply refresh_signer_identity | simpl; auto].
Qed.

(** Where a call of [create_access_token] comes from: the signing of
    one of the two tokens, or the single [create] of the store. *)
Lemma create_access_token_call (W : Type) (h : Handler W) (self : AuthRPC)
  (u n a r : PyVal) (w : W) (c : Ext) :
  In c (calls h (create_access_token self u n a r) w) ->
  signed_identity c = Some (PStr (py_str u))
  \/ exists a' w1 r' w2,
       run h (access_token_or_signed self u a) w = (Ok a', w1)
       /\ run h (refresh_token_or_signed self u r) w1 = (Ok r', w2)
       /\ c = storage "create" [n; u; a'; r'].
Proof.
  rewrite create_access_token_calls. intros Hin.
  apply in_app_or in Hin. destruct Hin as [Hin | Hin].
  - left.
    pose proof (sat_calls h _ _ (access_token_or_signed_identity self u a) w) as HF.
    rewrite Forall_forall in HF. now apply HF.
  - destruct (run h (access_token_or_signed self u a) w) as [[a' | e] w1] eqn:Ea;
      [ | contradiction ].
    apply in_app_or in Hin. destruct Hin as [Hin | Hin].
    + left.
      pose proof (sat_calls h _ _ (refresh_token_or_signed_identity self u r) w1) as HF.
      rewrite Forall_forall in HF. now apply HF.
    + destruct (run h (refresh_token_or_signed self u r) w1) as [[r' | e] w2] eqn:Er;
        [ | contradiction ].
      destruct Hin as [<- | []].
      right. now exists a', w1, r', w2.
Qed.

Lemma message_of_fields (token : StoreAns) (msg : AccessToken.t) :
  message_of token = Ok msg ->
  (exists v, getattr token "id" = Ok v /\ AccessToken.id msg = PStr (py_str v))
  /\ (exists v, getattr token "user_id" = Ok v
                /\ AccessToken.user_id msg = PStr (py_str v))
  /\ getattr token "name" = Ok (AccessToken.name msg)
  /\ getattr token "access_token" = Ok (AccessToken.access_token msg)
  /\ getattr token "refresh_token" = Ok (AccessToken.refresh_token msg)
  /\ getattr token "revoked" = Ok (AccessToken.revoked msg)
  /\ getattr token "issed_on" = Ok (AccessToken.issued_on msg)
  /\ getattr token "last_used_on" = Ok (AccessToken.last_used_on msg)
  /\ getattr token "jti" = Ok (AccessToken.jti msg).
Proof.
  unfold message_of.
  repeat match goal with
         | |- context [rbind (getattr token ?a) _] =>
             destruct (getattr token a); simpl; [ | discriminate ]
         end.
  intros [= <-]; simpl. repeat split; eauto.
Qed.

Lemma truthy_nonempty (s : string) : s <> "" -> truthy (PStr s) = true.
Proof.
  intros Hs; simpl. apply negb_true_iff. now apply String.eqb_neq.
Qed.

Lemma filter_none {A : Type} (p : A -> bool) (l : list A) :
  Forall (fun x => p x = false) l -> filter p l = [].
Proof.
  induction 1 as [ | x l Hx _ IH]; simpl; auto. now rewrite Hx.
Qed.

Lemma signing_makes_no_store_call (W : Type) (h : Handler W) (self : AuthRPC)
  (u : PyVal) (w : W) :
  (forall a, filter is_storage (calls h (access_token_or_signed self u a) w) = [])
  /\ (forall r,
         filter is_storage (calls h (refresh_token_or_signed self u r) w) = []).
Proof.
  split; intros x; apply filter_none.
  - eapply Forall_impl;
      [ | exact (sat_calls h _ _ (access_token_or_signed_identity self u x) w) ].
    intros [ | | | ]; simpl; intros; auto; discriminate.
  - eapply Forall_impl;
      [ | exact (sat_calls h _ _ (refresh_token_or_signed_identity self u x) w) ].
    intros [ | | | ]; simpl; intros; auto; discriminate.
Qed.

(** The store calls of [create_access_token]: none while a token is
    missing, the single [create] once both are there. *)
Lemma create_access_token_store_calls (W : Type) (h : Handler W) (self : AuthRPC)
  (u n a r : PyVal) (w : W) :
  filter is_storage (calls h (create_access_token self u n a r) w) =
  match run h (access_token_or_signed self u a) w with
  | (Err _, _) => []
  | (Ok a', w1) =>
      match run h (refresh_token_or_signed self u r) w1 with
      | (Err _, _) => []
      | (Ok r', w2) => [storage "create" [n; u; a'; r']]
      end
  end.
Proof.
  rewrite create_access_token_calls, filter_app.
  rewrite (proj1 (signing_makes_no_store_call W h self u w) a). simpl.
  destruct (run h (access_token_or_signed self u a) w) as [[a' | e] w1]; auto.
  rewrite filter_app.
  rewrite (proj2 (signing_makes_no_store_call W h self u w1) r). simpl.
  now destruct (run h (refresh_token_or_signed self u r) w1) as [[r' | e] w2].
Qed.

(** ** C1 *)

(** C1, as worded, fails: creating a token for user [u1] under the
    name [laptop] makes one call to the store, [create] with four
    values; no call carries a [jti]. *)
Lemma create_call_has_no_jti :
  ~ persists_with_extracted_jti spec_world
      (create_access_token service (PStr "u1") (PStr "laptop") PNone PNone) w0.
Proof.
  intros (n & u & a & r & j & Hin & _).
  vm_compute in Hin.
  repeat (destruct Hin as [Hin | Hin]; [ discriminate Hin | ]).
  exact Hin.
Qed.

(** C1 (amended): the service never extracts a [jti].  Whatever the
    collaborators do, [create_access_token] first obtains the access
    token, then the refresh token, each being the one supplied or,
    when it is missing or empty, the one the signer returns; if one
    of them raises, that error is raised and the store is not called.
    Otherwise the store is called once, [create] with exactly the four
    values name, user_id, access_token and refresh_token, the user_id
    as it was received, and the outcome is the store's error or the
    message built from the record object it returned: the [jti] and
    [access_token] of the message are the attributes of that object. *)
Theorem create_hands_four_values_to_the_store :
  forall (W : Type) (h : Handler W) (self : AuthRPC) (u n a r : PyVal) (w : W),
    let access : Result PyVal * W :=
      if truthy a then (Ok a, w)
      else match run h (_create_access_token (jwt self) (PStr (py_str u))) w with
           | (Ok t, w') => (Ok (PStr t), w')
           | (Err e, w') => (Err e, w')
           end in
    let refresh : W -> Result PyVal * W :=
      fun w1 =>
        if truthy r then (Ok r, w1)
        else match run h (_create_refresh_token (jwt self) (PStr (py_str u))) w1 with
             | (Ok t, w') => (Ok (PStr t), w')
             | (Err e, w') => (Err e, w')
             end in
    (forall method args,
        In (storage method args) (calls h (create_access_token self u n a r) w) ->
        method = "create" /\ exists a' r', args = [n; u; a'; r'])
    /\ (forall msg,
        result h (create_access_token self u n a r) w = Ok msg ->
        exists a' w1 r' w2 token w3,
          access = (Ok a', w1)
          /\ refresh w1 = (Ok r', w2)
          /\ h (storage "create" [n; u; a'; r']) w2 = (Ok token, w3)
          /\ message_of token = Ok msg
          /\ getattr token "jti" = Ok (AccessToken.jti msg)
          /\ getattr token "access_token" = Ok (AccessToken.access_token msg))
    /\ filter is_storage (calls h (create_access_token self u n a r) w)
       = match access with
         | (Err _, _) => []
         | (Ok a', w1) =>
             match refresh w1 with
             | (Err _, _) => []
             | (Ok r', w2) => [storage "create" [n; u; a'; r']]
             end
         end
    /\ run h (create_access_token self u n a r) w
       = match access with
         | (Err e, w1) => (Err e, w1)
         | (Ok a', w1) =>
             match refresh w1 with
             | (Err e, w2) => (Err e, w2)
             | (Ok r', w2) =>
                 match h (storage "create" [n; u; a'; r']) w2 with
                 | (Ok token, w3) => (message_of token, w3)
                 | (Err e, w3) => (Err e, w3)
                 end
             end
         end.
Proof.
  intros W h self u n a r w access refresh.
  assert (Ha : run h (access_token_or_signed self u a) w = access)
    by apply access_token_or_signed_run.
  assert (Hr : forall w1, run h (refresh_token_or_signed self u r) w1 = refresh w1)
    by (intros w1; apply refresh_token_or_signed_run).
  clearbody access refresh.
  split; [ | split; [ | split ] ].
  - intros method args Hin.
    apply create_access_token_call in Hin.
    destruct Hin as [Hid | (a' & w1 & r' & w2 & _ & _ & Hc)].
    + discriminate Hid.
    + injection Hc as -> ->. split; eauto.
  - intros msg. unfold result. rewrite create_access_token_run, Ha.
    destruct access as [[a' | e] w1]; [ | discriminate ].
    rewrite Hr.
    destruct (refresh w1) as [[r' | e] w2] eqn:Er; [ | discriminate ].
    destruct (h (storage "create" [n; u; a'; r']) w2) as [[token | e] w3] eqn:Hc;
      [ | discriminate ].
    simpl. intros Hm.
    exists a', w1, r', w2, token, w3.
    pose proof (message_of_fields _ _ Hm) as F.
    repeat split; try assumption; apply F.
  - rewrite create_access_token_store_calls, Ha.
    destruct access as [[a' | e] w1]; auto. now rewrite Hr.
  - rewrite create_access_token_run, Ha.
    destruct access as [[a' | e] w1]; auto. now rewrite Hr.
Qed.

Lemma create_hands_four_values_to_the_store_witness :
  ("create" = "create"
   /\ exists a' r',
        [PStr "laptop"; PUUID 255;
         PStr "jwt.00000000-0000-0000-0000-000000000001"; PStr "given"]
        = [PStr "laptop"; PUUID 255; a'; r'])
  /\ filter is_storage
       (calls spec_world
          (create_access_token service (PUUID 255) (PStr "laptop") PNone
             (PStr "given")) w0)
     = [storage "create"
          [PStr "laptop"; PUUID 255;
           PStr "jwt.00000000-0000-0000-0000-000000000001"; PStr "given"]].
Proof.
  split.
  - apply (proj1 (create_hands_four_values_to_the_store World spec_world service
                    (PUUID 255) (PStr "laptop") PNone (PStr "given") w0)).
    in_list.
  - exact (proj1 (proj2 (proj2
             (create_hands_four_values_to_the_store World spec_world service
                (PUUID 255) (PStr "laptop") PNone (PStr "given") w0)))).
Defined.

(** In the reference world the store finds the [jti] in the token it
    is given, so a message that comes back carries the [jti] of its
    own access token. *)
Lemma reference_store_keeps_jti (stamp : string) (self : AuthRPC)
  (u n a r : PyVal) (w : World) (msg : AccessToken.t) :
  result (world stamp) (create_access_token self u n a r) w = Ok msg ->
  exists signed,
    decode (after (world stamp) (create_access_token self u n a r) w)
      (AccessToken.access_token msg) = Some signed
    /\ AccessToken.jti msg = PStr (signed_jti signed).
Proof.
  unfold result, after. rewrite create_access_token_run.
  destruct (run (world stamp) (access_token_or_signed self u a) w)
    as [[a' | e] w1]; [ | discriminate ].
  destruct (run (world stamp) (refresh_token_or_signed self u r) w1)
    as [[r' | e] w2]; [ | discriminate ].
  simpl.
  change (TokenStore.dispatch stamp "create" [n; u; a'; r'] w2)
    with (TokenStore.create stamp n u a' r' w2).
  unfold TokenStore.create.
  destruct (decode w2 a') as [signed | ] eqn:Hd; [ | simpl; discriminate ].
  destruct (existsb _ (rows w2)); [ simpl; discriminate | ].
  simpl. intros Hm. apply message_of_fields in Hm.
  destruct Hm as (_ & _ & _ & Hat & _ & _ & _ & _ & Hj).
  simpl in Hat, Hj. injection Hat as <-. injection Hj as Hj.
  exists signed. split; [ | now symmetry ].
  destruct a'; auto.
Qed.

(** ** C9 *)

(** C9: whatever the collaborators do, every call that
    [create_access_token] makes to the signing machinery, for the
    access token and for the refresh token alike, carries
    [str(user_id)] as identity; and when a token is not supplied, the
    signing function that produces it is run on [str(user_id)]. *)
Theorem signer_is_given_str_of_user_id :
  forall (W : Type) (h : Handler W) (self : AuthRPC) (u n a r : PyVal) (w : W),
    (forall c i,
        In c (calls h (create_access_token self u n a r) w) ->
        signed_identity c = Some i -> i = PStr (py_str u))
    /\ (truthy a = false ->
        exists rest,
          calls h (create_access_token self u n a r) w =
          (calls h (_create_access_token (jwt self) (PStr (py_str u))) w
             ++ rest)%list)
    /\ (truthy r = false ->
        forall a' w1,
          run h (access_token_or_signed self u a) w = (Ok a', w1) ->
          exists before rest,
            calls h (create_access_token self u n a r) w =
            (before
               ++ calls h (_create_refresh_token (jwt self) (PStr (py_str u))) w1
               ++ rest)%list).
Proof.
  intros W h self u n a r w. repeat split.
  - intros c i Hin Hid.
    apply create_access_token_call in Hin.
    destruct Hin as [Hs | (a' & w1 & r' & w2 & _ & _ & ->)].
    + congruence.
    + discriminate Hid.
  - intros Ha. rewrite create_access_token_calls.
    unfold access_token_or_signed at 1. rewrite Ha. simpl.
    rewrite calls_bind. rewrite <- app_assoc. eauto.
  - intros Hr a' w1 Hrun. rewrite create_access_token_calls, Hrun.
    unfold refresh_token_or_signed at 1. rewrite Hr. simpl.
    rewrite calls_bind. rewrite <- app_assoc. eauto.
Qed.

Lemma signer_is_given_str_of_user_id_witness :
  PStr "00000000-0000-0000-0000-0000000000ff" = PStr (py_str (PUUID 255)).
Proof.
  apply (proj1 (signer_is_given_str_of_user_id World spec_world service
                  (PUUID 255) (PStr "laptop") PNone PNone w0)
           (user_claims_callback (PStr "00000000-0000-0000-0000-0000000000ff"))).
  - in_list.
  - reflexivity.
Defined.

Lemma refresh_stage_encodes_no_access_token (W : Type) (h : Handler W)
  (self : AuthRPC) (u r : PyVal) (w : W) (kw : AccessKw.t) :
  ~ In (encode_access_token kw) (calls h (refresh_token_or_signed self u r) w).
Proof.
  assert (Hs : sat (fun c => forall k, c <> encode_access_token k)
                 (refresh_token_or_signed self u r)).
  { unfold refresh_token_or_signed.
    destruct (truthy r); simpl; auto.
    apply sat_bind; [ | simpl; auto ].
    unfold _create_refresh_token, call.
    sat_steps; repeat split; intros; try discriminate; auto.
    destruct (truthy _); sat_steps; repeat split; intros; try discriminate; auto. }
  intros Hin. pose proof (sat_calls h _ _ Hs w) as HF.
  rewrite Forall_forall in HF. now apply (HF _ Hin kw).
Qed.

Lemma access_stage_encodes_no_refresh_token (W : Type) (h : Handler W)
  (self : AuthRPC) (u a : PyVal) (w : W) (kw : RefreshKw.t) :
  ~ In (encode_refresh_token kw) (calls h (access_token_or_signed self u a) w).
Proof.
  assert (Hs : sat (fun c => forall k, c <> encode_refresh_token k)
                 (access_token_or_signed self u a)).
  { unfold access_token_or_signed.
    destruct (truthy a); simpl; auto.
    apply sat_bind; [ | simpl; auto ].
    unfold _create_access_token, call.
    sat_steps; repeat split; intros; try discriminate; auto. }
  intros Hin. pose proof (sat_calls h _ _ Hs w) as HF.
  rewrite Forall_forall in HF. now apply (HF _ Hin kw).
Qed.

(** ** C10 *)

(** C10: an empty string given as access_token or refresh_token is
    treated exactly as an omitted argument: the programs are the same,
    the signer is run, and the token it returns is the one handed to
    the store's [create], whose outcome is that of the call.  A
    non-empty string is handed to the store as it was given, and
    nothing is signed in its place. *)
Theorem empty_token_is_replaced_by_a_signed_one :
  forall (W : Type) (h : Handler W) (self : AuthRPC) (u n : PyVal) (w : W),
    (forall r, create_access_token self u n (PStr "") r
               = create_access_token self u n PNone r)
    /\ (forall a, create_access_token self u n a (PStr "")
                  = create_access_token self u n a PNone)
    /\ (forall r args,
        In (storage "create" args)
           (calls h (create_access_token self u n (PStr "") r) w) ->
        exists t w',
          run h (_create_access_token (jwt self) (PStr (py_str u))) w = (Ok t, w')
          /\ nth_error args 2%nat = Some (PStr t))
    /\ (forall a args,
        In (storage "create" args)
           (calls h (create_access_token self u n a (PStr "")) w) ->
        exists a' w1 t w2,
          run h (access_token_or_signed self u a) w = (Ok a', w1)
          /\ run h (_create_refresh_token (jwt self) (PStr (py_str u))) w1
             = (Ok t, w2)
          /\ nth_error args 3%nat = Some (PStr t))
    /\ (forall s r args,
        s <> "" ->
        In (storage "create" args)
           (calls h (create_access_token self u n (PStr s) r) w) ->
        nth_error args 2%nat = Some (PStr s))
    /\ (forall s a args,
        s <> "" ->
        In (storage "create" args)
           (calls h (create_access_token self u n a (PStr s)) w) ->
        nth_error args 3%nat = Some (PStr s))
    /\ (forall r t w1 r' w2,
        run h (_create_access_token (jwt self) (PStr (py_str u))) w = (Ok t, w1) ->
        run h (refresh_token_or_signed self u r) w1 = (Ok r', w2) ->
        filter is_storage (calls h (create_access_token self u n (PStr "") r) w)
        = [storage "create" [n; u; PStr t; r']]
        /\ run h (create_access_token self u n (PStr "") r) w
           = match h (storage "create" [n; u; PStr t; r']) w2 with
             | (Ok token, w3) => (message_of token, w3)
             | (Err e, w3) => (Err e, w3)
             end)
    /\ (forall a a' w1 t w2,
        run h (access_token_or_signed self u a) w = (Ok a', w1) ->
        run h (_create_refresh_token (jwt self) (PStr (py_str u))) w1
        = (Ok t, w2) ->
        filter is_storage (calls h (create_access_token self u n a (PStr "")) w)
        = [storage "create" [n; u; a'; PStr t]]
        /\ run h (create_access_token self u n a (PStr "")) w
           = match h (storage "create" [n; u; a'; PStr t]) w2 with
             | (Ok token, w3) => (message_of token, w3)
             | (Err e, w3) => (Err e, w3)
             end)
    /\ (forall s r r' w2,
        s <> "" ->
        run h (refresh_token_or_signed self u r) w = (Ok r', w2) ->
        filter is_storage (calls h (create_access_token self u n (PStr s) r) w)
        = [storage "create" [n; u; PStr s; r']]
        /\ (forall kw,
               ~ In (encode_access_token kw)
                   (calls h (create_access_token self u n (PStr s) r) w))
        /\ run h (create_access_token self u n (PStr s) r) w
           = match h (storage "create" [n; u; PStr s; r']) w2 with
             | (Ok token, w3) => (message_of token, w3)
             | (Err e, w3) => (Err e, w3)
             end)
    /\ (forall s a a' w1,
        s <> "" ->
        run h (access_token_or_signed self u a) w = (Ok a', w1) ->
        filter is_storage (calls h (create_access_token self u n a (PStr s)) w)
        = [storage "create" [n; u; a'; PStr s]]
        /\ (forall kw,
               ~ In (encode_refresh_token kw)
                   (calls h (create_access_token self u n a (PStr s)) w))
        /\ run h (create_access_token self u n a (PStr s)) w
           = match h (storage "create" [n; u; a'; PStr s]) w1 with
             | (Ok token, w3) => (message_of token, w3)
             | (Err e, w3) => (Err e, w3)
             end).
Proof.
  intros W h self u n w.
  split; [ reflexivity | ]. split; [ reflexivity | ].
  split; [ | split; [ | split; [ | split; [ | split; [ | split; [ | split ] ] ] ] ] ].
  - intros r args Hin.
    apply create_access_token_call in Hin.
    destruct Hin as [Hs | (a' & w1 & r' & w2 & Ha & _ & Hc)]; [ discriminate Hs | ].
    injection Hc as ->.
    rewrite access_token_or_signed_run in Ha. simpl in Ha.
    destruct (run h (_create_access_token (jwt self) (PStr (py_str u))) w)
      as [[t | e] w']; [ | discriminate ].
    injection Ha as <- <-. now exists t, w'.
  - intros a args Hin.
    apply create_access_token_call in Hin.
    destruct Hin as [Hs | (a' & w1 & r' & w2 & Ha & Hr & Hc)]; [ discriminate Hs | ].
    injection Hc as ->.
    rewrite refresh_token_or_signed_run in Hr. simpl in Hr.
    destruct (run h (_create_refresh_token (jwt self) (PStr (py_str u))) w1)
      as [[t | e] w'] eqn:Et; [ | discriminate ].
    injection Hr as <- <-. now exists a', w1, t, w'.
  - intros s r args Hs Hin.
    apply create_access_token_call in Hin.
    destruct Hin as [Hi | (a' & w1 & r' & w2 & Ha & _ & Hc)]; [ discriminate Hi | ].
    injection Hc as ->.
    rewrite access_token_or_signed_run, (truthy_nonempty s Hs) in Ha.
    now injection Ha as <- _.
  - intros s a args Hs Hin.
    apply create_access_token_call in Hin.
    destruct Hin as [Hi | (a' & w1 & r' & w2 & _ & Hr & Hc)]; [ discriminate Hi | ].
    injection Hc as ->.
    rewrite refresh_token_or_signed_run, (truthy_nonempty s Hs) in Hr.
    now injection Hr as <- _.
  - intros r t w1 r' w2 Ht Hr.
    assert (Ha : run h (access_token_or_signed self u (PStr "")) w
                 = (Ok (PStr t), w1))
      by (rewrite access_token_or_signed_run; simpl; now rewrite Ht).
    rewrite create_access_token_store_calls, create_access_token_run, Ha, Hr.
    now split.
  - intros a a' w1 t w2 Ha Ht.
    assert (Hr : run h (refresh_token_or_signed self u (PStr "")) w1
                 = (Ok (PStr t), w2))
      by (rewrite refresh_token_or_signed_run; simpl; now rewrite Ht).
    rewrite create_access_token_store_calls, create_access_token_run, Ha, Hr.
    now split.
  - intros s r r' w2 Hs Hr.
    assert (Ha : run h (access_token_or_signed self u (PStr s)) w = (Ok (PStr s), w))
      by (rewrite access_token_or_signed_run; now rewrite (truthy_nonempty s Hs)).
    rewrite create_access_token_store_calls, create_access_token_run, Ha, Hr.
    split; [ reflexivity | ]. split; [ | reflexivity ].
    intros kw Hin. rewrite create_access_token_calls, Ha, Hr in Hin.
    unfold access_token_or_signed in Hin.
    rewrite (truthy_nonempty s Hs) in Hin. simpl in Hin.
    apply in_app_or in Hin. destruct Hin as [Hin | [Hin | []]];
      [ | discriminate Hin ].
    now apply refresh_stage_encodes_no_access_token in Hin.
  - intros s a a' w1 Hs Ha.
    assert (Hr : run h (refresh_token_or_signed self u (PStr s)) w1
                 = (Ok (PStr s), w1))
      by (rewrite refresh_token_or_signed_run; now rewrite (truthy_nonempty s Hs)).
    rewrite create_access_token_store_calls, create_access_token_run, Ha, Hr.
    split; [ reflexivity | ]. split; [ | reflexivity ].
    intros kw Hin. rewrite create_access_token_calls, Ha, Hr in Hin.
    unfold refresh_token_or_signed in Hin.
    rewrite (truthy_nonempty s Hs) in Hin. simpl in Hin.
    apply in_app_or in Hin. destruct Hin as [Hin | [Hin | []]];
      [ | discriminate Hin ].
    now apply access_stage_encodes_no_refresh_token in Hin.
Qed.

Lemma empty_token_is_replaced_by_a_signed_one_witness :
  ("given" <> ""
   /\ nth_error [PStr "laptop"; PStr "u1"; PStr "given";
                 PStr "jwt.00000000-0000-0000-0000-000000000001"] 2%nat
      = Some (PStr "given"))
  /\ filter is_storage
       (calls (world "issed_on")
          (create_access_token service (PStr "u1") (PStr "laptop") (PStr "")
             (PStr "")) w0)
     = [storage "create"
          [PStr "laptop"; PStr "u1";
           PStr "jwt.00000000-0000-0000-0000-000000000001";
           PStr "jwt.00000000-0000-0000-0000-000000000002"]]
  /\ (exists msg,
        result (world "issed_on")
          (create_access_token service (PStr "u1") (PStr "laptop") (PStr "")
             (PStr "")) w0 = Ok msg
        /\ AccessToken.access_token msg
           = PStr "jwt.00000000-0000-0000-0000-000000000001").
Proof.
  split; [ | split ].
  - split; [ discriminate | ].
    apply (proj1 (proj2 (proj2 (proj2 (proj2
             (empty_token_is_replaced_by_a_signed_one World spec_world service
                (PStr "u1") (PStr "laptop") w0)))))
             "given" (PStr "")).
    + discriminate.
    + in_list.
  - eapply (proj1 (proj2 (proj2 (proj2 (proj2 (proj2 (proj2
              (empty_token_is_replaced_by_a_signed_one World (world "issed_on")
                 service (PStr "u1") (PStr "laptop") w0)))))))
              (PStr "") "jwt.00000000-0000-0000-0000-000000000001");
      reflexivity.
  - eexists. split.
    + unfold result.
      erewrite (proj2 (proj1 (proj2 (proj2 (proj2 (proj2 (proj2 (proj2
                  (empty_token_is_replaced_by_a_signed_one World
                     (world "issed_on") service (PStr "u1") (PStr "laptop")
                     w0)))))))
                  (PStr "") "jwt.00000000-0000-0000-0000-000000000001" _ _ _
                  eq_refl eq_refl)).
      reflexivity.
    + reflexivity.
Defined.

(** ** The requests of the signer *)

Lemma total_seconds_of (n : Z) (d : timedelta) :
  timedelta_of_seconds n = Ok d -> total_seconds d = n.
Proof.
  unfold timedelta_of_seconds, total_seconds.
  destruct (_ && _); [ | discriminate ].
  intros [= <-]; simpl.
  pose proof (Z.div_mod n 86400). lia.
Qed.

Lemma lifetime_inv (self : NoAppJWTManager) (key : string) (d : timedelta) :
  lifetime self key = Ok d ->
  exists v n, subscript self key = Ok v /\ py_int v = Ok n
              /\ timedelta_of_seconds n = Ok d /\ total_seconds d = n.
Proof.
  unfold lifetime.
  destruct (subscript self key) as [v | ] eqn:Hv; simpl; [ | discriminate ].
  destruct (py_int v) as [n | ] eqn:Hn; simpl; [ | discriminate ].
  intros Hd. exists v, n.
  repeat split; auto. now apply total_seconds_of.
Qed.

Ltac read_config key :=
  destruct (subscript _ key) as [? | ?] eqn:?; simpl;
  [ | try contradiction; try reflexivity ].

Section Signer.
Context {W : Type} (h : Handler W).

(** A request for an access token that shows up among the calls of
    the signer was built from the configuration, the identity and
    the answer of the hook. *)
Lemma access_signer_call (self : NoAppJWTManager) (i : PyVal) (w : W)
  (kw : AccessKw.t) :
  In (encode_access_token kw) (calls h (_create_access_token self i) w) ->
  exists d s al ick uck c,
    lifetime self "access_token_expires" = Ok d
    /\ subscript self "secret_key" = Ok s
    /\ subscript self "algorithm" = Ok al
    /\ subscript self "identity_claim_key" = Ok ick
    /\ subscript self "user_claims_key" = Ok uck
    /\ fst (h (user_claims_callback i) w) = Ok c
    /\ kw = access_kwargs i d s al ick uck c.
Proof.
  unfold _create_access_token, lifetime, encode_key_callback.
  read_config "access_token_expires".
  destruct (py_int _) as [n | ]; simpl; [ | contradiction ].
  destruct (timedelta_of_seconds n) as [d | ]; simpl; [ | contradiction ].
  read_config "secret_key".
  read_config "algorithm".
  intros [Hc | Hin]; [ discriminate Hc | ].
  destruct (h (user_claims_callback i) w) as [[c | e] w1] eqn:Hh;
    [ | contradiction ].
  revert Hin.
  read_config "identity_claim_key".
  read_config "user_claims_key".
  intros [Hc | Hin].
  - injection Hc as <-.
    do 6 eexists. repeat split; try reflexivity.
  - destruct (h _ w1) as [[? | ?] ?]; contradiction.
Qed.

Lemma refresh_signer_call (self : NoAppJWTManager) (i : PyVal) (w : W)
  (kw : RefreshKw.t) :
  In (encode_refresh_token kw) (calls h (_create_refresh_token self i) w) ->
  exists d flag s al ick uck,
    lifetime self "refresh_token_expires" = Ok d
    /\ subscript self "user_claims_in_refresh_token" = Ok flag
    /\ subscript self "secret_key" = Ok s
    /\ subscript self "algorithm" = Ok al
    /\ subscript self "identity_claim_key" = Ok ick
    /\ subscript self "user_claims_key" = Ok uck
    /\ (if truthy flag
        then exists c, fst (h (user_claims_callback i) w) = Ok c
                       /\ kw = refresh_kwargs i d s al ick uck (Some c)
        else kw = refresh_kwargs i d s al ick uck None).
Proof.
  unfold _create_refresh_token, lifetime, encode_key_callback.
  read_config "refresh_token_expires".
  destruct (py_int _) as [n | ]; simpl; [ | contradiction ].
  destruct (timedelta_of_seconds n) as [d | ]; simpl; [ | contradiction ].
  read_config "user_claims_in_refresh_token".
  destruct (truthy _) eqn:Hflag; simpl.
  - intros [Hc | Hin]; [ discriminate Hc | ].
    destruct (h (user_claims_callback i) w) as [[c | e] w1] eqn:Hh;
      [ | contradiction ].
    revert Hin. simpl.
    read_config "secret_key".
    read_config "algorithm".
    read_config "identity_claim_key".
    read_config "user_claims_key".
    intros [Hc | Hin].
    + injection Hc as <-.
      do 6 eexists. repeat split; try reflexivity.
      rewrite Hflag. eexists; split; reflexivity.
    + destruct (h _ w1) as [[? | ?] ?]; contradiction.
  - read_config "secret_key".
    read_config "algorithm".
    read_config "identity_claim_key".
    read_config "user_claims_key".
    intros [Hc | Hin].
    + injection Hc as <-.
      do 6 eexists. repeat split; try reflexivity.
      now rewrite Hflag.
    + destruct (h _ w) as [[? | ?] ?]; contradiction.
Qed.

(** With a complete configuration the signer raises nothing of its
    own: the outcome is that of the hook and of the encoder. *)
Lemma access_signer_run (self : NoAppJWTManager) (i : PyVal) (w : W)
  (d : timedelta) (s al ick uck : PyVal) :
  lifetime self "access_token_expires" = Ok d ->
  subscript self "secret_key" = Ok s ->
  subscript self "algorithm" = Ok al ->
  subscript self "identity_claim_key" = Ok ick ->
  subscript self "user_claims_key" = Ok uck ->
  run h (_create_access_token self i) w =
  match h (user_claims_callback i) w with
  | (Ok c, w1) => h (encode_access_token (access_kwargs i d s al ick uck c)) w1
  | (Err e, w1) => (Err e, w1)
  end.
Proof.
  intros Hd Hs Hal Hick Huck.
  apply lifetime_inv in Hd. destruct Hd as (v & n & Hv & Hn & Hd & _).
  unfold _create_access_token, encode_key_callback.
  rewrite Hv; simpl. rewrite Hn; simpl. rewrite Hd; simpl.
  rewrite Hs; simpl. rewrite Hal; simpl.
  destruct (h (user_claims_callback i) w) as [[c | e] w1]; auto.
  rewrite Hick; simpl. rewrite Huck; simpl.
  unfold access_kwargs, _user_identity_callback.
  now destruct (h _ w1) as [[? | ?] ?].
Qed.

Lemma refresh_signer_run (self : NoAppJWTManager) (i : PyVal) (w : W)
  (d : timedelta) (flag s al ick uck : PyVal) :
  lifetime self "refresh_token_expires" = Ok d ->
  subscript self "user_claims_in_refresh_token" = Ok flag ->
  subscript self "secret_key" = Ok s ->
  subscript self "algorithm" = Ok al ->
  subscript self "identity_claim_key" = Ok ick ->
  subscript self "user_claims_key" = Ok uck ->
  run h (_create_refresh_token self i) w =
  if truthy flag then
    match h (user_claims_callback i) w with
    | (Ok c, w1) =>
        h (encode_refresh_token (refresh_kwargs i d s al ick uck (Some c))) w1
    | (Err e, w1) => (Err e, w1)
    end
  else h (encode_refresh_token (refresh_kwargs i d s al ick uck None)) w.
Proof.
  intros Hd Hf Hs Hal Hick Huck.
  apply lifetime_inv in Hd. destruct Hd as (v & n & Hv & Hn & Hd & _).
  unfold _create_refresh_token, encode_key_callback.
  rewrite Hv; simpl. rewrite Hn; simpl. rewrite Hd; simpl.
  rewrite Hf; simpl.
  destruct (truthy flag); simpl.
  - destruct (h (user_claims_callback i) w) as [[c | e] w1]; auto.
    simpl. rewrite Hs; simpl. rewrite Hal; simpl.
    rewrite Hick; simpl. rewrite Huck; simpl.
    unfold refresh_kwargs, _user_identity_callback.
    now destruct (h _ w1) as [[? | ?] ?].
  - rewrite Hs; simpl. rewrite Hal; simpl.
    rewrite Hick; simpl. rewrite Huck; simpl.
    unfold refresh_kwargs, _user_identity_callback.
    now destruct (h _ w) as [[? | ?] ?].
Qed.
End Signer.

(** ** C4 *)

(** C4, as worded, fails: the empty identity is signed, for an access
    token and for a refresh token. *)
Lemma empty_identity_is_signed :
  ~ rejects_empty_identity spec_world (jwt service) w0.
Proof.
  intros [[e He] | [e He]]; vm_compute in He; discriminate He.
Qed.

(** C4 (amended): the signer does not look at the identity at all.
    Whatever the collaborators do, a request that reaches the encoder
    carries the identity it was given, empty or not; and with a
    complete configuration the signer raises nothing of its own, the
    outcome being that of the hook and of the encoder. *)
Theorem signer_does_not_inspect_identity :
  forall (W : Type) (h : Handler W) (self : NoAppJWTManager) (i : PyVal) (w : W),
    (forall kw,
        In (encode_access_token kw) (calls h (_create_access_token self i) w) ->
        AccessKw.identity kw = i)
    /\ (forall kw,
        In (encode_refresh_token kw) (calls h (_create_refresh_token self i) w) ->
        RefreshKw.identity kw = i)
    /\ (forall d s al ick uck,
        lifetime self "access_token_expires" = Ok d ->
        subscript self "secret_key" = Ok s ->
        subscript self "algorithm" = Ok al ->
        subscript self "identity_claim_key" = Ok ick ->
        subscript self "user_claims_key" = Ok uck ->
        run h (_create_access_token self i) w =
        match h (user_claims_callback i) w with
        | (Ok c, w1) =>
            h (encode_access_token (access_kwargs i d s al ick uck c)) w1
        | (Err e, w1) => (Err e, w1)
        end)
    /\ (forall d flag s al ick uck,
        lifetime self "refresh_token_expires" = Ok d ->
        subscript self "user_claims_in_refresh_token" = Ok flag ->
        subscript self "secret_key" = Ok s ->
        subscript self "algorithm" = Ok al ->
        subscript self "identity_claim_key" = Ok ick ->
        subscript self "user_claims_key" = Ok uck ->
        run h (_create_refresh_token self i) w =
        if truthy flag then
          match h (user_claims_callback i) w with
          | (Ok c, w1) =>
              h (encode_refresh_token
                   (refresh_kwargs i d s al ick uck (Some c))) w1
          | (Err e, w1) => (Err e, w1)
          end
        else h (encode_refresh_token (refresh_kwargs i d s al ick uck None)) w).
Proof.
  intros W h self i w. repeat split.
  - intros kw Hin. apply access_signer_call in Hin.
    destruct Hin as (d & s & al & ick & uck & c & _ & _ & _ & _ & _ & _ & ->).
    reflexivity.
  - intros kw Hin. apply refresh_signer_call in Hin.
    destruct Hin as (d & flag & s & al & ick & uck & _ & _ & _ & _ & _ & _ & Hkw).
    destruct (truthy flag); [ destruct Hkw as (c & _ & ->) | subst kw ];
      reflexivity.
  - intros. now apply access_signer_run.
  - intros. now apply refresh_signer_run.
Qed.

Lemma signer_does_not_inspect_identity_witness :
  run spec_world (_create_access_token (jwt service) (PStr "")) w0 =
  match spec_world (user_claims_callback (PStr "")) w0 with
  | (Ok c, w1) =>
      spec_world
        (encode_access_token
           (access_kwargs (PStr "") {| days := 0; seconds := 900 |}
              (PStr "s3cr3t") (PStr "HS256") (PStr "identity")
              (PStr "user_claims") c)) w1
  | (Err e, w1) => (Err e, w1)
  end.
Proof.
  apply (proj1 (proj2 (proj2
           (signer_does_not_inspect_identity World spec_world (jwt service)
              (PStr "") w0)))); reflexivity.
Defined.

(** ** The signer in the reference world *)

Lemma sign_decodes (req : Request) (w : World) :
  exists token,
    fst (sign req w) = Ok token
    /\ decode (snd (sign req w)) (PStr token)
       = Some {| signed_jti := uuid_str (counter w); signed_at := clock w;
                 signed_request := req |}.
Proof.
  unfold sign. eexists. split; [ reflexivity | ].
  cbn [snd decode issued lookup]. now rewrite String.eqb_refl.
Qed.

Lemma reference_access_signer (stamp : string) (self : NoAppJWTManager)
  (i : PyVal) (w : World) (d : timedelta) (s al ick uck : PyVal) :
  lifetime self "access_token_expires" = Ok d ->
  subscript self "secret_key" = Ok s ->
  subscript self "algorithm" = Ok al ->
  subscript self "identity_claim_key" = Ok ick ->
  subscript self "user_claims_key" = Ok uck ->
  run (world stamp) (_create_access_token self i) w
  = sign (access_request (access_kwargs i d s al ick uck (loader w))) w.
Proof.
  intros Hd Hs Hal Hick Huck.
  now rewrite (access_signer_run (world stamp) self i w d s al ick uck).
Qed.

Lemma reference_refresh_signer (stamp : string) (self : NoAppJWTManager)
  (i : PyVal) (w : World) (d : timedelta) (flag s al ick uck : PyVal) :
  lifetime self "refresh_token_expires" = Ok d ->
  subscript self "user_claims_in_refresh_token" = Ok flag ->
  subscript self "secret_key" = Ok s ->
  subscript self "algorithm" = Ok al ->
  subscript self "identity_claim_key" = Ok ick ->
  subscript self "user_claims_key" = Ok uck ->
  run (world stamp) (_create_refresh_token self i) w
  = sign (refresh_request
            (refresh_kwargs i d s al ick uck
               (if truthy flag then Some (loader w) else None))) w.
Proof.
  intros Hd Hf Hs Hal Hick Huck.
  rewrite (refresh_signer_run (world stamp) self i w d flag s al ick uck);
    auto.
  now destruct (truthy flag).
Qed.

(** ** C5 *)

(** C5: whatever the collaborators do, a request for an access token
    carries the claims the hook returned for the identity, under the
    configured [user_claims_key]; a request for a refresh token carries
    them when the flag [user_claims_in_refresh_token] is true, and no
    claims at all when it is false.  With a complete configuration the
    request is made, and the token the signer returns is the encoder's
    answer to it.  In the reference world, whose encoder embeds what
    it is given, the access token returned embeds the claims of the
    hook under that key, and the refresh token embeds them exactly
    when the flag is true. *)
Theorem custom_claims_follow_the_flag :
  forall (W : Type) (h : Handler W) (self : NoAppJWTManager) (i : PyVal) (w : W),
    (forall kw,
        In (encode_access_token kw) (calls h (_create_access_token self i) w) ->
        fst (h (user_claims_callback i) w) = Ok (AccessKw.user_claims kw)
        /\ subscript self "user_claims_key" = Ok (AccessKw.user_claims_key kw))
    /\ (forall kw,
        In (encode_refresh_token kw) (calls h (_create_refresh_token self i) w) ->
        exists flag,
          subscript self "user_claims_in_refresh_token" = Ok flag
          /\ subscript self "user_claims_key" = Ok (RefreshKw.user_claims_key kw)
          /\ (truthy flag = true ->
              exists c, fst (h (user_claims_callback i) w) = Ok c
                        /\ RefreshKw.user_claims kw = Some c)
          /\ (truthy flag = false -> RefreshKw.user_claims kw = None))
    /\ (forall d s al ick uck,
        lifetime self "access_token_expires" = Ok d ->
        subscript self "secret_key" = Ok s ->
        subscript self "algorithm" = Ok al ->
        subscript self "identity_claim_key" = Ok ick ->
        subscript self "user_claims_key" = Ok uck ->
        run h (_create_access_token self i) w =
        match h (user_claims_callback i) w with
        | (Ok c, w1) =>
            h (encode_access_token (access_kwargs i d s al ick uck c)) w1
        | (Err e, w1) => (Err e, w1)
        end)
    /\ (forall d flag s al ick uck,
        lifetime self "refresh_token_expires" = Ok d ->
        subscript self "user_claims_in_refresh_token" = Ok flag ->
        subscript self "secret_key" = Ok s ->
        subscript self "algorithm" = Ok al ->
        subscript self "identity_claim_key" = Ok ick ->
        subscript self "user_claims_key" = Ok uck ->
        run h (_create_refresh_token self i) w =
        if truthy flag then
          match h (user_claims_callback i) w with
          | (Ok c, w1) =>
              h (encode_refresh_token
                   (refresh_kwargs i d s al ick uck (Some c))) w1
          | (Err e, w1) => (Err e, w1)
          end
        else h (encode_refresh_token (refresh_kwargs i d s al ick uck None)) w)
    /\ (forall (stamp : string) (ws : World) d s al ick uck,
        lifetime self "access_token_expires" = Ok d ->
        subscript self "secret_key" = Ok s ->
        subscript self "algorithm" = Ok al ->
        subscript self "identity_claim_key" = Ok ick ->
        subscript self "user_claims_key" = Ok uck ->
        exists token signed,
          result (world stamp) (_create_access_token self i) ws = Ok token
          /\ decode (after (world stamp) (_create_access_token self i) ws)
               (PStr token) = Some signed
          /\ custom_claims signed = Some (uck, loader ws))
    /\ (forall (stamp : string) (ws : World) d flag s al ick uck,
        lifetime self "refresh_token_expires" = Ok d ->
        subscript self "user_claims_in_refresh_token" = Ok flag ->
        subscript self "secret_key" = Ok s ->
        subscript self "algorithm" = Ok al ->
        subscript self "identity_claim_key" = Ok ick ->
        subscript self "user_claims_key" = Ok uck ->
        exists token signed,
          result (world stamp) (_create_refresh_token self i) ws = Ok token
          /\ decode (after (world stamp) (_create_refresh_token self i) ws)
               (PStr token) = Some signed
          /\ custom_claims signed
             = if truthy flag then Some (uck, loader ws) else None).
Proof.
  intros W h self i w.
  split; [ | split; [ | split; [ | split; [ | split ] ] ] ].
  - intros kw Hin. apply access_signer_call in Hin.
    destruct Hin as (d & s & al & ick & uck & c & _ & _ & _ & _ & Huck & Hc & ->).
    now split.
  - intros kw Hin. apply refresh_signer_call in Hin.
    destruct Hin as (d & flag & s & al & ick & uck
                     & _ & Hf & _ & _ & _ & Huck & Hkw).
    exists flag.
    destruct (truthy flag).
    + destruct Hkw as (c & Hc & ->). simpl.
      repeat split; auto; [ eauto | discriminate ].
    + subst kw. simpl. repeat split; auto. discriminate.
  - intros. now apply access_signer_run.
  - intros. now apply refresh_signer_run.
  - intros stamp ws d s al ick uck Hd Hs Hal Hick Huck.
    unfold result, after.
    rewrite (reference_access_signer stamp self i ws d s al ick uck) by assumption.
    destruct (sign_decodes
                (access_request (access_kwargs i d s al ick uck (loader ws))) ws)
      as (token & Ht & Hdec).
    exists token. eexists. split; [ exact Ht | ]. split; [ exact Hdec | ].
    reflexivity.
  - intros stamp ws d flag s al ick uck Hd Hf Hs Hal Hick Huck.
    unfold result, after.
    rewrite (reference_refresh_signer stamp self i ws d flag s al ick uck)
      by assumption.
    destruct (sign_decodes
                (refresh_request
                   (refresh_kwargs i d s al ick uck
                      (if truthy flag then Some (loader ws) else None))) ws)
      as (token & Ht & Hdec).
    exists token. eexists. split; [ exact Ht | ]. split; [ exact Hdec | ].
    now destruct (truthy flag).
Qed.

Lemma custom_claims_follow_the_flag_witness :
  (exists token signed,
      result spec_world (_create_access_token signer_claims (PStr "u1")) w0_claims
      = Ok token
      /\ decode (after spec_world (_create_access_token signer_claims (PStr "u1"))
                   w0_claims) (PStr token) = Some signed
      /\ custom_claims signed
         = Some (PStr "user_claims", [("role", PStr "admin")]))
  /\ (exists token signed,
        result spec_world (_create_refresh_token signer_claims (PStr "u1"))
          w0_claims = Ok token
        /\ decode (after spec_world
                     (_create_refresh_token signer_claims (PStr "u1")) w0_claims)
             (PStr token) = Some signed
        /\ custom_claims signed
           = Some (PStr "user_claims", [("role", PStr "admin")]))
  /\ (exists token signed,
        result spec_world (_create_refresh_token (jwt service) (PStr "u1"))
          w0_claims = Ok token
        /\ decode (after spec_world
                     (_create_refresh_token (jwt service) (PStr "u1")) w0_claims)
             (PStr token) = Some signed
        /\ custom_claims signed = None).
Proof.
  split; [ | split ].
  - apply (proj1 (proj2 (proj2 (proj2 (proj2
             (custom_claims_follow_the_flag World spec_world signer_claims
                (PStr "u1") w0_claims)))))
             "issued_on" w0_claims {| days := 0; seconds := 900 |}
             (PStr "s3cr3t") (PStr "HS256") (PStr "identity")
             (PStr "user_claims")); reflexivity.
  - apply (proj2 (proj2 (proj2 (proj2 (proj2
             (custom_claims_follow_the_flag World spec_world signer_claims
                (PStr "u1") w0_claims)))))
             "issued_on" w0_claims {| days := 30; seconds := 0 |} (PBool true)
             (PStr "s3cr3t") (PStr "HS256") (PStr "identity")
             (PStr "user_claims")); reflexivity.
  - apply (proj2 (proj2 (proj2 (proj2 (proj2
             (custom_claims_follow_the_flag World spec_world (jwt service)
                (PStr "u1") w0_claims)))))
             "issued_on" w0_claims {| days := 30; seconds := 0 |} (PBool false)
             (PStr "s3cr3t") (PStr "HS256") (PStr "identity")
             (PStr "user_claims")); reflexivity.
Defined.

(** ** C6 *)



(** ** The reference store *)

Lemma with_rows_same (w : World) : with_rows w (rows w) = w.
Proof. now destruct w. Qed.

Lemma set_revoked_revoked (r : Row) :
  AccessTokenRecord.revoked r = true -> TokenStore.set_revoked r = r.
Proof. destruct r; simpl; now intros ->. Qed.

Lemma find_none_filter {A : Type} (p : A -> bool) (l : list A) :
  find p (filter (fun x => negb (p x)) l) = None.
Proof.
  induction l as [ | x l IH]; simpl; auto.
  destruct (p x) eqn:Hp; simpl; auto. now rewrite Hp.
Qed.

Lemma messages_in (l : list PyObj) (ms : list AccessToken.t) (m : AccessToken.t) :
  messages l = Ok ms -> In m ms ->
  exists o, In o l /\ message_of (SObj o) = Ok m.
Proof.
  revert ms; induction l as [ | o l IH]; simpl; intros ms.
  - intros [= <-] [].
  - destruct (message_of (SObj o)) as [m0 | ] eqn:Hm; simpl; [ | discriminate ].
    destruct (messages l) as [ms0 | ]; simpl; [ | discriminate ].
    intros [= <-] [<- | Hin]; eauto.
    destruct (IH ms0 eq_refl Hin) as (o' & Ho' & Hm'); eauto.
Qed.

Lemma message_of_data_model (r : Row) :
  message_of (SObj (TokenStore.object_of "issued_on" r))
  = Err (AttributeError "issed_on").
Proof. reflexivity. Qed.

(** ** C2 *)

(** C2 fails on the code: the message is built from the attribute
    [issed_on], which a record of the data model does not have, so
    with the store of the data model [create_access_token] never
    returns a message.  For user [u1] and name [laptop] the record is
    persisted and the call then raises [AttributeError]. *)
Theorem create_reads_a_misspelt_attribute :
  (forall r : Row,
      message_of (SObj (TokenStore.object_of "issued_on" r))
      = Err (AttributeError "issed_on"))
  /\ (forall self u n a r w msg,
         result spec_world (create_access_token self u n a r) w <> Ok msg)
  /\ result spec_world
       (create_access_token service (PStr "u1") (PStr "laptop") PNone PNone) w0
     = Err (AttributeError "issed_on")
  /\ map AccessTokenRecord.name
       (rows (after spec_world
                (create_access_token service (PStr "u1") (PStr "laptop")
                   PNone PNone) w0))
     = [PStr "laptop"].
Proof.
  split; [ exact message_of_data_model | ].
  split; [ | split; reflexivity ].
  intros self u n a r w msg. unfold result.
  rewrite create_access_token_run.
  destruct (run spec_world (access_token_or_signed self u a) w)
    as [[a' | e] w1]; [ | discriminate ].
  destruct (run spec_world (refresh_token_or_signed self u r) w1)
    as [[r' | e] w2]; [ | discriminate ].
  change (spec_world (storage "create" [n; u; a'; r']) w2)
    with (TokenStore.create "issued_on" n u a' r' w2).
  unfold TokenStore.create.
  destruct (decode w2 a'); [ | discriminate ].
  destruct (existsb _ (rows w2)); discriminate.
Qed.

(** ** C3 *)

(** C3: when the store answers a single-record lookup with [None], the
    service returns [None] and raises nothing, whatever the store is;
    and the reference store answers [None] when no record matches, so
    there [get], [get_by_name] and [get_by_jti] return [None]. *)
Theorem missing_record_is_none :
  forall (self : AuthRPC),
    (forall (W : Type) (h : Handler W) (w w' : W) (ans : StoreAns),
        ans_truthy ans = false ->
        (forall t, h (storage "get" [t]) w = (Ok ans, w') ->
                   run h (get self t) w = (Ok None, w'))
        /\ (forall u n, h (storage "get_by_name" [u; n]) w = (Ok ans, w') ->
                        run h (get_by_name self u n) w = (Ok None, w'))
        /\ (forall u j, h (storage "get_by_jti" [u; j]) w = (Ok ans, w') ->
                        run h (get_by_jti self u j) w = (Ok None, w')))
    /\ (forall (stamp : string) (w : World),
        (forall t,
            find (TokenStore.has_id t) (rows w) = None ->
            run (world stamp) (get self t) w = (Ok None, w))
        /\ (forall u n,
            find (fun r => TokenStore.owned_by u r
                           && py_eqb (AccessTokenRecord.name r) n) (rows w) = None ->
            run (world stamp) (get_by_name self u n) w = (Ok None, w))
        /\ (forall u j,
            find (fun r => TokenStore.owned_by u r
                           && py_eqb (AccessTokenRecord.jti r) j) (rows w) = None ->
            run (world stamp) (get_by_jti self u j) w = (Ok None, w))).
Proof.
  intros self. split.
  - intros W h w w' ans Hf.
    repeat split; intros; simpl;
      match goal with H : h _ w = _ |- _ => rewrite H end;
      unfold found; now rewrite Hf.
  - intros stamp w. repeat split; intros; simpl.
    + unfold TokenStore.get. now rewrite H.
    + unfold TokenStore.get_by_name. now rewrite H.
    + unfold TokenStore.get_by_jti. now rewrite H.
Qed.

Lemma missing_record_is_none_witness :
  run spec_world (get service (PStr "t9")) w1 = (Ok None, w1)
  /\ run spec_world (get_by_name service (PStr "u1") (PStr "phone")) w1
     = (Ok None, w1)
  /\ run spec_world (get_by_jti service (PStr "u2") (PStr "j9")) w1
     = (Ok None, w1).
Proof.
  split; [ | split ].
  - apply (proj1 (proj2 (missing_record_is_none service) "issued_on" w1)).
    reflexivity.
  - apply (proj1 (proj2 (proj2 (missing_record_is_none service) "issued_on" w1))).
    reflexivity.
  - apply (proj2 (proj2 (proj1 (missing_record_is_none service)
                           World spec_world w1 w1 SNone eq_refl))).
    reflexivity.
Defined.

(** ** C7 *)

Lemma revoke_rows (u t : PyVal) (w : World) :
  rows (TokenStore.revoke u t w) =
  map (fun r => if TokenStore.has_id t r && TokenStore.owned_by u r
                then TokenStore.set_revoked r else r) (rows w).
Proof. reflexivity. Qed.

(** C7: [revoke_access_token] is a single call to the store's
    [revoke], whatever the store is.  On the reference store it
    returns normally; a second revoke changes nothing; a record that
    was revoked stays as it is; the identified record of the user is
    revoked afterwards; and when no record of that user has that
    identifier nothing changes. *)
Theorem revoke_is_idempotent_and_silent :
  forall (stamp : string) (self : AuthRPC) (u t : PyVal) (w : World),
    (forall (W : Type) (h : Handler W) (w' : W),
        calls h (revoke_access_token self u t) w' = [storage "revoke" [u; t]])
    /\ run (world stamp) (revoke_access_token self u t) w
       = (Ok tt, TokenStore.revoke u t w)
    /\ run (world stamp) (revoke_access_token self u t) (TokenStore.revoke u t w)
       = (Ok tt, TokenStore.revoke u t w)
    /\ (forall r, In r (rows w) -> AccessTokenRecord.revoked r = true ->
                  In r (rows (TokenStore.revoke u t w)))
    /\ (forall r, In r (rows (TokenStore.revoke u t w)) ->
                  TokenStore.has_id t r && TokenStore.owned_by u r = true ->
                  AccessTokenRecord.revoked r = true)
    /\ ((forall r, In r (rows w) ->
                   TokenStore.has_id t r && TokenStore.owned_by u r = false) ->
        run (world stamp) (revoke_access_token self u t) w = (Ok tt, w)).
Proof.
  intros stamp self u t w.
  assert (Hidem : TokenStore.revoke u t (TokenStore.revoke u t w)
                  = TokenStore.revoke u t w).
  { unfold TokenStore.revoke at 1 3. rewrite revoke_rows.
    destruct w as [c k l i rs]; unfold with_rows; simpl. f_equal.
    rewrite map_map. apply map_ext. intros r.
    destruct (TokenStore.has_id t r && TokenStore.owned_by u r) eqn:Hc.
    - change (TokenStore.has_id t (TokenStore.set_revoked r)
              && TokenStore.owned_by u (TokenStore.set_revoked r))
        with (TokenStore.has_id t r && TokenStore.owned_by u r).
      now rewrite Hc.
    - now rewrite Hc. }
  split; [ | split; [ | split; [ | split; [ | split ] ] ] ].
  - intros W h w'. simpl. now destruct (h _ w') as [[? | ?] ?].
  - reflexivity.
  - simpl. now rewrite Hidem.
  - intros r Hin Hrev. rewrite revoke_rows.
    apply in_map_iff. exists r. split; auto.
    destruct (_ && _); auto. now apply set_revoked_revoked.
  - intros r Hin Hc. rewrite revoke_rows in Hin.
    apply in_map_iff in Hin. destruct Hin as (r0 & <- & _).
    destruct (TokenStore.has_id t r0 && TokenStore.owned_by u r0) eqn:Hc0.
    + reflexivity.
    + congruence.
  - intros Hno. simpl. f_equal.
    transitivity (with_rows w (rows w)); [ | apply with_rows_same ].
    unfold TokenStore.revoke. f_equal.
    transitivity (map (fun r : Row => r) (rows w)); [ | apply map_id ].
    apply map_ext_in. intros r Hin. now rewrite (Hno r Hin).
Qed.

Lemma revoke_is_idempotent_and_silent_witness :
  AccessTokenRecord.revoked r2 = true
  /\ In r2 (rows (TokenStore.revoke (PStr "u2") (PStr "t2") w1))
  /\ run spec_world (revoke_access_token service (PStr "u1") (PStr "t1")) w1
     = (Ok tt, w1).
Proof.
  split; [ reflexivity | ]. split.
  - apply (proj1 (proj2 (proj2 (proj2
             (revoke_is_idempotent_and_silent "issued_on" service
                (PStr "u2") (PStr "t2") w1))))).
    + in_list.
    + reflexivity.
  - apply (proj2 (proj2 (proj2 (proj2 (proj2
             (revoke_is_idempotent_and_silent "issued_on" service
                (PStr "u1") (PStr "t1") w1)))))).
    intros r [<- | [<- | []]]; reflexivity.
Defined.

(** ** C8 *)

(** C8, as worded, fails: the record [t1] belongs to [u2]; a delete in
    the name of [u1] returns normally and leaves the record in the
    store, so a [get] that follows does not come back empty. *)
Lemma delete_by_another_user_is_not_final :
  ~ deletion_is_final spec_world service (PStr "u1") (PStr "t1") w1
  /\ ~ deletion_is_final (world "issed_on") service (PStr "u1") (PStr "t1") w1
  /\ TokenStore.get "issued_on" (PStr "t1")
       (after spec_world (delete_access_token service (PStr "u1") (PStr "t1")) w1)
     = SObj (TokenStore.object_of "issued_on" r1).
Proof.
  split; [ | split; [ | reflexivity ] ].
  - intros H. destruct (H eq_refl) as [Hget _].
    vm_compute in Hget. discriminate Hget.
  - intros H. destruct (H eq_refl) as [Hget _].
    vm_compute in Hget. discriminate Hget.
Qed.

Lemma delete_rows (u t : PyVal) (w : World) :
  rows (TokenStore.delete u t w) =
  filter (fun r => negb (TokenStore.has_id t r && TokenStore.owned_by u r))
    (rows w).
Proof. reflexivity. Qed.

Lemma found_answer {W : Type} (h : Handler W) (stamp : string)
  (r : option Row) (w : W) :
  run h (found (TokenStore.answer stamp r)) w =
  (match r with
   | Some r =>
       match message_of (SObj (TokenStore.object_of stamp r)) with
       | Ok m => Ok (Some m)
       | Err e => Err e
       end
   | None => Ok None
   end, w).
Proof.
  destruct r as [r | ]; [ | reflexivity ].
  change (TokenStore.answer stamp (Some r))
    with (SObj (TokenStore.object_of stamp r)).
  generalize (TokenStore.object_of stamp r). intros o.
  unfold found. change (ans_truthy (SObj o)) with true.
  cbv beta iota delta [negb].
  now destruct (message_of (SObj o)).
Qed.

(** A record that a single-record lookup of the reference store finds
    is one of its rows. *)
Lemma found_row {W : Type} (h : Handler W) (stamp : string) (p : Row -> bool)
  (rs : list Row) (w : W) (m : AccessToken.t) :
  fst (run h (found (TokenStore.answer stamp (find p rs))) w) = Ok (Some m) ->
  exists r, In r rs /\ message_of (SObj (TokenStore.object_of stamp r)) = Ok m.
Proof.
  rewrite found_answer. cbn [fst].
  destruct (find p rs) as [r | ] eqn:Hf; [ | discriminate ].
  apply find_some in Hf.
  destruct (message_of (SObj (TokenStore.object_of stamp r))) as [m0 | ] eqn:Hm;
    [ | discriminate ].
  intros [= <-]. exists r. split; [ apply Hf | exact Hm ].
Qed.

(** C8 (amended): [delete_access_token(u, t)] always returns, and
    removes the records with identifier [t] that belong to [u].  When
    every record with identifier [t] belongs to [u], no record with
    that identifier is left afterwards: [get(t)] returns [None], and
    every message of [get_by_user], [get_by_name] and [get_by_jti],
    for any user, comes from a record with another identifier.  When
    the records with identifier [t] belong to other users, the delete
    leaves the store as it was, and a record that [get(t)] found
    before is still found. *)
Theorem delete_of_an_owned_record_is_final :
  forall (stamp : string) (self : AuthRPC) (u t : PyVal) (w : World),
    let w' := TokenStore.delete u t w in
    run (world stamp) (delete_access_token self u t) w = (Ok tt, w')
    /\ ((forall r, In r (rows w) -> TokenStore.has_id t r = true ->
                   TokenStore.owned_by u r = true) ->
        rows w' = filter (fun r => negb (TokenStore.has_id t r)) (rows w)
        /\ run (world stamp) (get self t) w' = (Ok None, w')
        /\ (forall ms m,
               result (world stamp) (get_by_user self u) w' = Ok ms ->
               In m ms ->
               exists r, In r (rows w)
                         /\ TokenStore.owned_by u r = true
                         /\ TokenStore.has_id t r = false
                         /\ message_of (SObj (TokenStore.object_of stamp r)) = Ok m)
        /\ (forall u' ms m,
               result (world stamp) (get_by_user self u') w' = Ok ms ->
               In m ms ->
               exists r, In r (rows w)
                         /\ TokenStore.has_id t r = false
                         /\ message_of (SObj (TokenStore.object_of stamp r)) = Ok m)
        /\ (forall u' n m,
               result (world stamp) (get_by_name self u' n) w' = Ok (Some m) ->
               exists r, In r (rows w)
                         /\ TokenStore.has_id t r = false
                         /\ message_of (SObj (TokenStore.object_of stamp r)) = Ok m)
        /\ (forall u' j m,
               result (world stamp) (get_by_jti self u' j) w' = Ok (Some m) ->
               exists r, In r (rows w)
                         /\ TokenStore.has_id t r = false
                         /\ message_of (SObj (TokenStore.object_of stamp r)) = Ok m))
    /\ ((forall r, In r (rows w) -> TokenStore.has_id t r = true ->
                   TokenStore.owned_by u r = false) ->
        w' = w
        /\ forall r, find (TokenStore.has_id t) (rows w) = Some r ->
                     TokenStore.get stamp t w'
                     = SObj (TokenStore.object_of stamp r)
                     /\ run (world stamp) (get self t) w' <> (Ok None, w')).
Proof.
  intros stamp self u t w w'.
  split; [ reflexivity | ]. split.
  - intros Hown.
    assert (Hrows : rows w' = filter (fun r => negb (TokenStore.has_id t r)) (rows w)).
    { unfold w'. rewrite delete_rows. apply filter_ext_in.
      intros r Hin. destruct (TokenStore.has_id t r) eqn:Hid; simpl; auto.
      now rewrite (Hown r Hin Hid). }
    clearbody w'.
    assert (Hleft : forall r, In r (rows w') ->
                              In r (rows w) /\ TokenStore.has_id t r = false).
    { intros r Hr. rewrite Hrows in Hr. apply filter_In in Hr.
      destruct Hr as [Hr Hid]. split; auto. now apply negb_true_iff. }
    assert (Hlist : forall u' ms m,
               result (world stamp) (get_by_user self u') w' = Ok ms ->
               In m ms ->
               exists r, In r (rows w)
                         /\ TokenStore.owned_by u' r = true
                         /\ TokenStore.has_id t r = false
                         /\ message_of (SObj (TokenStore.object_of stamp r)) = Ok m).
    { intros u' ms m. unfold result. simpl.
      unfold TokenStore.get_by_user. simpl.
      rewrite run_lift. simpl. intros Hms Hin.
      destruct (messages_in _ _ _ Hms Hin) as (o & Ho & Hm).
      rewrite map_map in Ho. simpl in Ho.
      apply in_map_iff in Ho. destruct Ho as (r & <- & Hr).
      apply filter_In in Hr. destruct Hr as [Hr Hu].
      destruct (Hleft r Hr) as [Hin' Hid].
      exists r. now repeat split. }
    split; [ exact Hrows | ]. split; [ | split; [ | split; [ | split ] ] ].
    + simpl. unfold TokenStore.get. rewrite Hrows.
      now rewrite (find_none_filter (TokenStore.has_id t)).
    + intros ms m. apply Hlist.
    + intros u' ms m Hms Hin.
      destruct (Hlist u' ms m Hms Hin) as (r & Hr & _ & Hid & Hm). eauto.
    + intros u' n m. unfold result. simpl. unfold TokenStore.get_by_name.
      intros H. apply found_row in H. destruct H as (r & Hr & Hm).
      destruct (Hleft r Hr) as [Hin Hid]. eauto.
    + intros u' j m. unfold result. simpl. unfold TokenStore.get_by_jti.
      intros H. apply found_row in H. destruct H as (r & Hr & Hm).
      destruct (Hleft r Hr) as [Hin Hid]. eauto.
  - intros Hforeign.
    assert (Hsame : w' = w).
    { unfold w', TokenStore.delete.
      transitivity (with_rows w (rows w)); [ | apply with_rows_same ].
      f_equal.
      transitivity (filter (fun _ : Row => true) (rows w)).
      - apply filter_ext_in. intros r Hin.
        destruct (TokenStore.has_id t r) eqn:Hid; simpl; auto.
        now rewrite (Hforeign r Hin Hid).
      - clear. induction (rows w) as [ | r l IH]; simpl; auto. now rewrite IH. }
    split; [ exact Hsame | ].
    intros r Hf. rewrite Hsame. split.
    + unfold TokenStore.get. now rewrite Hf.
    + change (run (world stamp) (get self t) w)
        with (run (world stamp)
                (found (TokenStore.answer stamp
                          (find (TokenStore.has_id t) (rows w)))) w).
      rewrite Hf, found_answer.
      destruct (message_of (SObj (TokenStore.object_of stamp r))); discriminate.
Qed.

Lemma delete_of_an_owned_record_is_final_witness :
  run (world "issed_on") (get service (PStr "t1"))
    (TokenStore.delete (PStr "u2") (PStr "t1") w1)
  = (Ok None, TokenStore.delete (PStr "u2") (PStr "t1") w1)
  /\ TokenStore.delete (PStr "u1") (PStr "t1") w1 = w1.
Proof.
  assert (Hown : forall r, In r (rows w1) ->
                           TokenStore.has_id (PStr "t1") r = true ->
                           TokenStore.owned_by (PStr "u2") r = true)
    by (intros r [<- | [<- | []]] _; reflexivity).
  assert (Hforeign : forall r, In r (rows w1) ->
                               TokenStore.has_id (PStr "t1") r = true ->
                               TokenStore.owned_by (PStr "u1") r = false)
    by (intros r [<- | [<- | []]] _; reflexivity).
  split.
  - exact (proj1 (proj2 (proj1 (proj2
             (delete_of_an_owned_record_is_final "issed_on" service
                (PStr "u2") (PStr "t1") w1)) Hown))).
  - exact (proj1 (proj2 (proj2
             (delete_of_an_owned_record_is_final "issed_on" service
                (PStr "u1") (PStr "t1") w1)) Hforeign)).
Defined.

(** * Further properties *)

(** ** The signer and its configuration *)

Lemma lifetime_err (self : NoAppJWTManager) (key : string) (e : Exc) :
  lifetime self key = Err e ->
  subscript self key = Err e
  \/ (exists v, subscript self key = Ok v /\ py_int v = Err e)
  \/ (exists v n, subscript self key = Ok v /\ py_int v = Ok n
                  /\ timedelta_of_seconds n = Err e).
Proof.
  unfold lifetime.
  destruct (subscript self key) as [v | e0]; simpl.
  - destruct (py_int v) as [n | e1] eqn:Hn; simpl.
    + intros Hd. right; right. now exists v, n.
    + intros [= ->]. right; left. now exists v.
  - intros [= ->]. now left.
Qed.

Section SignerErrors.
Context {W : Type} (h : Handler W).

Lemma access_signer_bad_lifetime (self : NoAppJWTManager) (i : PyVal) (e : Exc) :
  lifetime self "access_token_expires" = Err e ->
  _create_access_token self i = Raise e.
Proof.
  intros He. unfold _create_access_token.
  destruct (lifetime_err _ _ _ He) as [Hs | [(v & Hs & Hn) | (v & n & Hs & Hn & Hd)]];
    rewrite Hs; simpl; auto; rewrite Hn; simpl; auto; now rewrite Hd.
Qed.

Lemma refresh_signer_bad_lifetime (self : NoAppJWTManager) (i : PyVal) (e : Exc) :
  lifetime self "refresh_token_expires" = Err e ->
  _create_refresh_token self i = Raise e.
Proof.
  intros He. unfold _create_refresh_token.
  destruct (lifetime_err _ _ _ He) as [Hs | [(v & Hs & Hn) | (v & n & Hs & Hn & Hd)]];
    rewrite Hs; simpl; auto; rewrite Hn; simpl; auto; now rewrite Hd.
Qed.

(** The calls of the access signer: nothing, the hook alone, or the
    hook and then one request to the encoder. *)
Lemma access_signer_calls (self : NoAppJWTManager) (i : PyVal) (w : W) :
  calls h (_create_access_token self i) w = []
  \/ calls h (_create_access_token self i) w = [user_claims_callback i]
  \/ exists kw,
       calls h (_create_access_token self i) w
       = [user_claims_callback i; encode_access_token kw].
Proof.
  unfold _create_access_token, encode_key_callback.
  read_config "access_token_expires"; auto.
  destruct (py_int _) as [n | ]; simpl; auto.
  destruct (timedelta_of_seconds n) as [d | ]; simpl; auto.
  read_config "secret_key"; auto.
  read_config "algorithm"; auto.
  destruct (h (user_claims_callback i) w) as [[c | e] w1]; auto.
  read_config "identity_claim_key"; auto.
  read_config "user_claims_key"; auto.
  right; right. eexists.
  destruct (h _ w1) as [[? | ?] ?]; reflexivity.
Qed.

Lemma refresh_signer_calls (self : NoAppJWTManager) (i : PyVal) (w : W) :
  calls h (_create_refresh_token self i) w = []
  \/ calls h (_create_refresh_token self i) w = [user_claims_callback i]
  \/ (exists kw,
        calls h (_create_refresh_token self i) w
        = [user_claims_callback i; encode_refresh_token kw])
  \/ (exists kw,
        calls h (_create_refresh_token self i) w = [encode_refresh_token kw]).
Proof.
  unfold _create_refresh_token, encode_key_callback.
  read_config "refresh_token_expires"; auto.
  destruct (py_int _) as [n | ]; simpl; auto.
  destruct (timedelta_of_seconds n) as [d | ]; simpl; auto.
  read_config "user_claims_in_refresh_token"; auto.
  destruct (truthy _); simpl.
  - destruct (h (user_claims_callback i) w) as [[c | e] w1]; auto.
    simpl.
    read_config "secret_key"; auto.
    read_config "algorithm"; auto.
    read_config "identity_claim_key"; auto.
    read_config "user_claims_key"; auto.
    right; right; left. eexists.
    destruct (h _ w1) as [[? | ?] ?]; reflexivity.
  - read_config "secret_key"; auto.
    read_config "algorithm"; auto.
    read_config "identity_claim_key"; auto.
    read_config "user_claims_key"; auto.
    right; right; right. eexists.
    destruct (h _ w) as [[? | ?] ?]; reflexivity.
Qed.

Lemma refresh_signer_without_flag (self : NoAppJWTManager) (i : PyVal) (w : W)
  (flag : PyVal) (c : Ext) :
  subscript self "user_claims_in_refresh_token" = Ok flag ->
  truthy flag = false ->
  In c (calls h (_create_refresh_token self i) w) ->
  exists kw, c = encode_refresh_token kw /\ RefreshKw.user_claims kw = None.
Proof.
  intros Hf Ht.
  unfold _create_refresh_token, encode_key_callback.
  read_config "refresh_token_expires".
  destruct (py_int _) as [n | ]; simpl; [ | contradiction ].
  destruct (timedelta_of_seconds n) as [d | ]; simpl; [ | contradiction ].
  rewrite Hf; simpl. rewrite Ht; simpl.
  read_config "secret_key".
  read_config "algorithm".
  read_config "identity_claim_key".
  read_config "user_claims_key".
  intros [<- | Hin]; [ eauto | ].
  destruct (h _ w) as [[? | ?] ?]; contradiction.
Qed.

(** A key of the claims that is missing shows once the hook has run. *)
Lemma access_signer_late_key (self : NoAppJWTManager) (i : PyVal) (w w1 : W)
  (d : timedelta) (s al : PyVal) (c : Claims) (e : Exc) :
  lifetime self "access_token_expires" = Ok d ->
  subscript self "secret_key" = Ok s ->
  subscript self "algorithm" = Ok al ->
  (subscript self "identity_claim_key" = Err e
   \/ (exists ick, subscript self "identity_claim_key" = Ok ick)
      /\ subscript self "user_claims_key" = Err e) ->
  h (user_claims_callback i) w = (Ok c, w1) ->
  run h (_create_access_token self i) w = (Err e, w1)
  /\ calls h (_create_access_token self i) w = [user_claims_callback i].
Proof.
  intros Hd Hs Hal Hk Hh.
  apply lifetime_inv in Hd. destruct Hd as (v & n & Hv & Hn & Hd & _).
  unfold _create_access_token, encode_key_callback.
  rewrite Hv; simpl. rewrite Hn; simpl. rewrite Hd; simpl.
  rewrite Hs; simpl. rewrite Hal; simpl. rewrite Hh.
  destruct Hk as [Hick | [(ick & Hick) Huck]]; rewrite Hick; simpl; auto.
  rewrite Huck; simpl; auto.
Qed.
End SignerErrors.

(** X1: a lifetime that cannot be read, because the key is missing,
    [int] refuses the value or [timedelta] overflows, makes the
    signing function raise that error before any collaborator is
    called. *)
Theorem bad_lifetime_raises_before_any_call :
  forall (W : Type) (h : Handler W) (self : NoAppJWTManager) (i : PyVal)
         (w : W) (e : Exc),
    (lifetime self "access_token_expires" = Err e ->
     run h (_create_access_token self i) w = (Err e, w)
     /\ calls h (_create_access_token self i) w = [])
    /\ (lifetime self "refresh_token_expires" = Err e ->
        run h (_create_refresh_token self i) w = (Err e, w)
        /\ calls h (_create_refresh_token self i) w = []).
Proof.
  intros W h self i w e. split; intros He.
  - now rewrite (access_signer_bad_lifetime self i e He).
  - now rewrite (refresh_signer_bad_lifetime self i e He).
Qed.

Lemma bad_lifetime_raises_before_any_call_witness :
  run spec_world
    (_create_access_token {| config := Some jwt_config_bad_lifetime |} (PStr "u1"))
    w0 = (Err ValueError, w0)
  /\ calls spec_world
       (_create_access_token {| config := Some jwt_config_bad_lifetime |}
          (PStr "u1")) w0 = [].
Proof.
  apply (proj1 (bad_lifetime_raises_before_any_call World spec_world
                  {| config := Some jwt_config_bad_lifetime |} (PStr "u1") w0
                  ValueError)).
  reflexivity.
Defined.

(** X2: when the service configuration has no ["jwt"] entry, a
    [create_access_token] that has to sign one of the tokens raises
    [TypeError] and calls neither the encoder, the hook nor the store. *)
Theorem absent_jwt_configuration_raises_type_error :
  forall (W : Type) (h : Handler W) (cfg : Dict Config) (u n a r : PyVal) (w : W),
    lookup "jwt" cfg = None ->
    truthy a && truthy r = false ->
    run h (create_access_token (AuthRPC_init cfg) u n a r) w = (Err TypeError, w)
    /\ calls h (create_access_token (AuthRPC_init cfg) u n a r) w = [].
Proof.
  intros W h cfg u n a r w Hcfg Hf.
  assert (Ha : forall i, _create_access_token (jwt (AuthRPC_init cfg)) i
                         = Raise TypeError).
  { intros i. apply access_signer_bad_lifetime.
    unfold lifetime, subscript; simpl. now rewrite Hcfg. }
  assert (Hr : forall i, _create_refresh_token (jwt (AuthRPC_init cfg)) i
                         = Raise TypeError).
  { intros i. apply refresh_signer_bad_lifetime.
    unfold lifetime, subscript; simpl. now rewrite Hcfg. }
  rewrite create_access_token_run, create_access_token_calls.
  unfold access_token_or_signed, refresh_token_or_signed.
  rewrite Ha, Hr.
  destruct (truthy a); simpl; auto.
  destruct (truthy r); simpl; auto. discriminate Hf.
Qed.

Lemma absent_jwt_configuration_raises_type_error_witness :
  run spec_world
    (create_access_token (AuthRPC_init []) (PStr "u1") (PStr "laptop")
       (PStr "given") PNone) w0 = (Err TypeError, w0)
  /\ calls spec_world
       (create_access_token (AuthRPC_init []) (PStr "u1") (PStr "laptop")
          (PStr "given") PNone) w0 = [].
Proof.
  apply (absent_jwt_configuration_raises_type_error World spec_world []
           (PStr "u1") (PStr "laptop") (PStr "given") PNone w0);
    reflexivity.
Defined.

(** X3: with a false [user_claims_in_refresh_token], signing a refresh
    token never calls the user-claims hook: the only call it can make
    is the request to the encoder, without claims. *)
Theorem refresh_without_flag_never_calls_hook :
  forall (W : Type) (h : Handler W) (self : NoAppJWTManager) (i : PyVal)
         (w : W) (flag : PyVal) (c : Ext),
    subscript self "user_claims_in_refresh_token" = Ok flag ->
    truthy flag = false ->
    In c (calls h (_create_refresh_token self i) w) ->
    exists kw, c = encode_refresh_token kw /\ RefreshKw.user_claims kw = None.
Proof.
  intros W h self i w flag c. apply refresh_signer_without_flag.
Qed.

Lemma refresh_without_flag_never_calls_hook_witness :
  exists kw,
    encode_refresh_token
      (refresh_kwargs (PStr "u1") {| days := 30; seconds := 0 |}
         (PStr "s3cr3t") (PStr "HS256") (PStr "identity")
         (PStr "user_claims") None)
    = encode_refresh_token kw
    /\ RefreshKw.user_claims kw = None.
Proof.
  apply (refresh_without_flag_never_calls_hook World spec_world (jwt service)
           (PStr "u1") w0_claims (PBool false)).
  - reflexivity.
  - reflexivity.
  - in_list.
Defined.

(** X4: every request of the signer uses the configured [secret_key],
    [algorithm] and [identity_claim_key], whatever the identity, and
    asks for no CSRF token; an access token is never fresh. *)
Theorem requests_use_the_configured_key :
  forall (W : Type) (h : Handler W) (self : NoAppJWTManager) (i : PyVal) (w : W),
    (forall kw,
        In (encode_access_token kw) (calls h (_create_access_token self i) w) ->
        subscript self "secret_key" = Ok (AccessKw.secret kw)
        /\ subscript self "algorithm" = Ok (AccessKw.algorithm kw)
        /\ subscript self "identity_claim_key" = Ok (AccessKw.identity_claim_key kw)
        /\ AccessKw.fresh kw = false
        /\ AccessKw.csrf kw = false)
    /\ (forall kw,
        In (encode_refresh_token kw) (calls h (_create_refresh_token self i) w) ->
        subscript self "secret_key" = Ok (RefreshKw.secret kw)
        /\ subscript self "algorithm" = Ok (RefreshKw.algorithm kw)
        /\ subscript self "identity_claim_key"
           = Ok (RefreshKw.identity_claim_key kw)
        /\ RefreshKw.csrf kw = false).
Proof.
  intros W h self i w. split; intros kw Hin.
  - apply access_signer_call in Hin.
    destruct Hin as (d & s & al & ick & uck & c & _ & Hs & Hal & Hick & _ & _ & ->).
    now repeat split.
  - apply refresh_signer_call in Hin.
    destruct Hin as (d & flag & s & al & ick & uck
                     & _ & _ & Hs & Hal & Hick & _ & Hkw).
    destruct (truthy flag); [ destruct Hkw as (c & _ & ->) | subst kw ];
      now repeat split.
Qed.

Lemma requests_use_the_configured_key_witness :
  subscript (jwt service) "secret_key" = Ok (PStr "s3cr3t")
  /\ subscript (jwt service) "algorithm" = Ok (PStr "HS256")
  /\ subscript (jwt service) "identity_claim_key" = Ok (PStr "identity")
  /\ false = false
  /\ false = false.
Proof.
  apply (proj1 (requests_use_the_configured_key World spec_world (jwt service)
                  (PUUID 255) w0)
           (access_kwargs (PUUID 255) {| days := 0; seconds := 900 |}
              (PStr "s3cr3t") (PStr "HS256") (PStr "identity")
              (PStr "user_claims") [])).
  in_list.
Defined.

(** X5: a signing function calls the hook at most once, with the
    identity it was given and before anything else, sends at most one
    request to the encoder, as its last call, and never calls the
    store. *)
Theorem signer_calls_hook_then_encoder :
  forall (W : Type) (h : Handler W) (self : NoAppJWTManager) (i : PyVal) (w : W),
    (calls h (_create_access_token self i) w = []
     \/ calls h (_create_access_token self i) w = [user_claims_callback i]
     \/ exists kw,
          calls h (_create_access_token self i) w
          = [user_claims_callback i; encode_access_token kw])
    /\ (calls h (_create_refresh_token self i) w = []
        \/ calls h (_create_refresh_token self i) w = [user_claims_callback i]
        \/ (exists kw,
              calls h (_create_refresh_token self i) w
              = [user_claims_callback i; encode_refresh_token kw])
        \/ (exists kw,
              calls h (_create_refresh_token self i) w
              = [encode_refresh_token kw])).
Proof.
  intros W h self i w. split.
  - apply access_signer_calls.
  - apply refresh_signer_calls.
Qed.

(** X6: in [_create_access_token] a missing [identity_claim_key] or
    [user_claims_key] is noticed only after the user-claims hook has
    been called: the hook runs, then the error is raised and nothing
    is sent to the encoder. *)
Theorem missing_claim_key_is_raised_after_the_hook :
  forall (W : Type) (h : Handler W) (self : NoAppJWTManager) (i : PyVal)
         (w w1 : W) (d : timedelta) (s al : PyVal) (c : Claims) (e : Exc),
    lifetime self "access_token_expires" = Ok d ->
    subscript self "secret_key" = Ok s ->
    subscript self "algorithm" = Ok al ->
    (subscript self "identity_claim_key" = Err e
     \/ (exists ick, subscript self "identity_claim_key" = Ok ick)
        /\ subscript self "user_claims_key" = Err e) ->
    h (user_claims_callback i) w = (Ok c, w1) ->
    run h (_create_access_token self i) w = (Err e, w1)
    /\ calls h (_create_access_token self i) w = [user_claims_callback i].
Proof.
  intros W h self i w w1 d s al c e. apply access_signer_late_key.
Qed.

Lemma missing_claim_key_is_raised_after_the_hook_witness :
  run spec_world
    (_create_access_token {| config := Some jwt_config_no_claims_key |}
       (PStr "u1")) w0_claims
  = (Err (KeyError "user_claims_key"), w0_claims)
  /\ calls spec_world
       (_create_access_token {| config := Some jwt_config_no_claims_key |}
          (PStr "u1")) w0_claims
     = [user_claims_callback (PStr "u1")].
Proof.
  apply (missing_claim_key_is_raised_after_the_hook World spec_world
           {| config := Some jwt_config_no_claims_key |} (PStr "u1")
           w0_claims w0_claims {| days := 0; seconds := 900 |}
           (PStr "s3cr3t") (PStr "HS256") [("role", PStr "admin")]
           (KeyError "user_claims_key")).
  - reflexivity.
  - reflexivity.
  - reflexivity.
  - right. split; [ now exists (PStr "identity") | reflexivity ].
  - reflexivity.
Defined.

(** ** The service and the store *)

Lemma found_run {W : Type} (h : Handler W) (token : StoreAns) (w : W) :
  run h (found token) w =
  (if ans_truthy token
   then match message_of token with
        | Ok m => Ok (Some m)
        | Err e => Err e
        end
   else Ok None, w).
Proof.
  unfold found. destruct (ans_truthy token); simpl; auto.
  now destruct (message_of token).
Qed.

Lemma message_of_first_missing (o : PyObj) :
  match first_missing o with
  | Some a => message_of (SObj o) = Err (AttributeError a)
  | None => exists m, message_of (SObj o) = Ok m
  end.
Proof.
  unfold first_missing, message_of, getattr; simpl.
  repeat match goal with
         | |- context [lookup ?a o] =>
             destruct (lookup a o); simpl; [ | reflexivity ]
         end.
  eauto.
Qed.

Lemma message_of_not_object (token : StoreAns) :
  (forall o, token <> SObj o) ->
  message_of token = Err (AttributeError "id").
Proof.
  destruct token as [ | o | items]; intros H; auto.
  now destruct (H o).
Qed.

Lemma messages_Forall2 (l : list PyObj) (ms : list AccessToken.t) :
  messages l = Ok ms <->
  Forall2 (fun o m => message_of (SObj o) = Ok m) l ms.
Proof.
  revert ms; induction l as [ | o l IH]; simpl; intros ms.
  - split.
    + intros [= <-]. constructor.
    + intros H. now inversion H.
  - split.
    + destruct (message_of (SObj o)) as [m | ] eqn:Hm; simpl; [ | discriminate ].
      destruct (messages l) as [ms0 | ] eqn:Hl; simpl; [ | discriminate ].
      intros [= <-]. constructor; auto. now apply IH.
    + intros H. inversion H as [ | o' m l' ms' Hm Hl]; subst.
      rewrite Hm; simpl. apply IH in Hl. now rewrite Hl.
Qed.

Lemma messages_err (l : list PyObj) (o : PyObj) (e : Exc) :
  In o l -> message_of (SObj o) = Err e -> exists e', messages l = Err e'.
Proof.
  induction l as [ | o' l IH]; simpl; [ intros [] | ].
  intros [-> | Hin] He.
  - rewrite He. simpl. eauto.
  - destruct (message_of (SObj o')); simpl; eauto.
    destruct (IH Hin He) as (e' & ->). simpl. eauto.
Qed.

Lemma no_store_call_while_signing (W : Type) (h : Handler W) (self : AuthRPC)
  (u : PyVal) (w : W) (method : string) (args : list PyVal) :
  (forall a, ~ In (storage method args) (calls h (access_token_or_signed self u a) w))
  /\ (forall r, ~ In (storage method args)
                  (calls h (refresh_token_or_signed self u r) w)).
Proof.
  split; intros x Hin.
  - pose proof (sat_calls h _ _ (access_token_or_signed_identity self u x) w) as HF.
    rewrite Forall_forall in HF. apply HF in Hin. discriminate Hin.
  - pose proof (sat_calls h _ _ (refresh_token_or_signed_identity self u x) w) as HF.
    rewrite Forall_forall in HF. apply HF in Hin. discriminate Hin.
Qed.

(** X7: when both tokens are supplied, non-empty, [create_access_token]
    signs nothing: its only call is the [create] of the store, with the
    tokens as given, and its outcome is that of the store, whatever the
    configuration of the signer. *)
Theorem supplied_tokens_are_stored_unsigned :
  forall (W : Type) (h : Handler W) (self : AuthRPC) (u n a r : PyVal) (w : W),
    truthy a = true ->
    truthy r = true ->
    calls h (create_access_token self u n a r) w
    = [storage "create" [n; u; a; r]]
    /\ run h (create_access_token self u n a r) w
       = match h (storage "create" [n; u; a; r]) w with
         | (Ok token, w') => (message_of token, w')
         | (Err e, w') => (Err e, w')
         end.
Proof.
  intros W h self u n a r w Ha Hr.
  rewrite create_access_token_run, create_access_token_calls.
  rewrite access_token_or_signed_run, Ha.
  rewrite refresh_token_or_signed_run, Hr.
  unfold access_token_or_signed, refresh_token_or_signed.
  rewrite Ha, Hr. simpl. split; reflexivity.
Qed.

Lemma supplied_tokens_are_stored_unsigned_witness :
  calls spec_world
    (create_access_token (AuthRPC_init []) (PUUID 7) (PStr "laptop")
       (PStr "a") (PStr "r")) w0
  = [storage "create" [PStr "laptop"; PUUID 7; PStr "a"; PStr "r"]]
  /\ run spec_world
       (create_access_token (AuthRPC_init []) (PUUID 7) (PStr "laptop")
          (PStr "a") (PStr "r")) w0
     = match spec_world
               (storage "create" [PStr "laptop"; PUUID 7; PStr "a"; PStr "r"]) w0
       with
       | (Ok token, w') => (message_of token, w')
       | (Err e, w') => (Err e, w')
       end.
Proof.
  apply (supplied_tokens_are_stored_unsigned World spec_world (AuthRPC_init [])
           (PUUID 7) (PStr "laptop") (PStr "a") (PStr "r") w0);
    reflexivity.
Defined.

(** X8: the store is called only once both tokens are there: when
    obtaining the access token or the refresh token raises,
    [create_access_token] raises the same error and no call to the
    store has been made. *)
Theorem nothing_is_stored_when_signing_fails :
  forall (W : Type) (h : Handler W) (self : AuthRPC) (u n a r : PyVal) (w : W)
         (e : Exc),
    (forall w1,
        run h (access_token_or_signed self u a) w = (Err e, w1) ->
        run h (create_access_token self u n a r) w = (Err e, w1)
        /\ forall method args,
             ~ In (storage method args) (calls h (create_access_token self u n a r) w))
    /\ (forall a' w1 w2,
        run h (access_token_or_signed self u a) w = (Ok a', w1) ->
        run h (refresh_token_or_signed self u r) w1 = (Err e, w2) ->
        run h (create_access_token self u n a r) w = (Err e, w2)
        /\ forall method args,
             ~ In (storage method args) (calls h (create_access_token self u n a r) w)).
Proof.
  intros W h self u n a r w e. split.
  - intros w1 Ha.
    rewrite create_access_token_run, create_access_token_calls, Ha.
    split; auto. intros method args Hin.
    rewrite app_nil_r in Hin.
    now apply (proj1 (no_store_call_while_signing W h self u w method args) a).
  - intros a' w1 w2 Ha Hr.
    rewrite create_access_token_run, create_access_token_calls, Ha, Hr.
    split; auto. intros method args Hin.
    rewrite app_nil_r in Hin. apply in_app_or in Hin.
    destruct Hin as [Hin | Hin].
    + now apply (proj1 (no_store_call_while_signing W h self u w method args) a).
    + now apply (proj2 (no_store_call_while_signing W h self u w1 method args) r).
Qed.

Lemma nothing_is_stored_when_signing_fails_witness :
  run spec_world
    (create_access_token
       {| jwt := {| config := Some jwt_config_bad_lifetime |} |}
       (PStr "u1") (PStr "laptop") PNone PNone) w0
  = (Err ValueError, w0)
  /\ forall method args,
       ~ In (storage method args)
           (calls spec_world
              (create_access_token
                 {| jwt := {| config := Some jwt_config_bad_lifetime |} |}
                 (PStr "u1") (PStr "laptop") PNone PNone) w0).
Proof.
  apply (proj1 (nothing_is_stored_when_signing_fails World spec_world
                  {| jwt := {| config := Some jwt_config_bad_lifetime |} |}
                  (PStr "u1") (PStr "laptop") PNone PNone w0 ValueError)).
  reflexivity.
Defined.

(** X9: once both tokens are there, the outcome of
    [create_access_token] is decided by the store's [create] alone: an
    error of the store, a conflict for instance, is raised unchanged,
    and an answer that is not a record object, [None] for instance,
    raises [AttributeError] on [id], for the method has no test for a
    missing record. *)
Theorem create_outcome_follows_the_store :
  forall (W : Type) (h : Handler W) (self : AuthRPC) (u n a r a' r' : PyVal)
         (w w1 w2 w3 : W),
    run h (access_token_or_signed self u a) w = (Ok a', w1) ->
    run h (refresh_token_or_signed self u r) w1 = (Ok r', w2) ->
    (forall e,
        h (storage "create" [n; u; a'; r']) w2 = (Err e, w3) ->
        run h (create_access_token self u n a r) w = (Err e, w3))
    /\ (forall token,
        h (storage "create" [n; u; a'; r']) w2 = (Ok token, w3) ->
        (forall o, token <> SObj o) ->
        run h (create_access_token self u n a r) w
        = (Err (AttributeError "id"), w3)).
Proof.
  intros W h self u n a r a' r' w w1 w2 w3 Ha Hr. split.
  - intros e Hc. now rewrite create_access_token_run, Ha, Hr, Hc.
  - intros token Hc Hno.
    rewrite create_access_token_run, Ha, Hr, Hc.
    now rewrite (message_of_not_object token Hno).
Qed.

Lemma create_outcome_follows_the_store_witness :
  run spec_world
    (create_access_token service (PStr "u2") (PStr "phone") PNone PNone) w1
  = (Err (Foreign "Conflict"),
     after spec_world
       (refresh_token_or_signed service (PStr "u2") PNone)
       (after spec_world (access_token_or_signed service (PStr "u2") PNone) w1))
  /\ run null_world
       (create_access_token service (PStr "u2") (PStr "phone") PNone (PStr "x")) tt
     = (Err (AttributeError "id"), tt).
Proof.
  split.
  - eapply (proj1 (create_outcome_follows_the_store World spec_world service
                     (PStr "u2") (PStr "phone") PNone PNone
                     (PStr "jwt.00000000-0000-0000-0000-000000000001")
                     (PStr "jwt.00000000-0000-0000-0000-000000000002")
                     w1 _ _ _ eq_refl eq_refl)).
    reflexivity.
  - eapply (proj2 (create_outcome_follows_the_store unit null_world service
                     (PStr "u2") (PStr "phone") PNone (PStr "x")
                     (PStr "a") (PStr "x") tt tt tt tt eq_refl eq_refl) SNone).
    + reflexivity.
    + discriminate.
Defined.

Lemma message_ids_are_strings (token : StoreAns) (m : AccessToken.t) :
  message_of token = Ok m ->
  (exists s, AccessToken.id m = PStr s)
  /\ (exists s, AccessToken.user_id m = PStr s).
Proof.
  intros Hm. apply message_of_fields in Hm.
  destruct Hm as ((v & _ & ->) & (v' & _ & ->) & _). eauto.
Qed.

Lemma found_some {W : Type} (h : Handler W) (token : StoreAns) (w : W)
  (m : AccessToken.t) :
  result h (found token) w = Ok (Some m) -> message_of token = Ok m.
Proof.
  unfold result. rewrite found_run. simpl.
  destruct (ans_truthy token); [ | discriminate ].
  destruct (message_of token); [ | discriminate ].
  now intros [= ->].
Qed.

(** X10: in every message the service returns, from
    [create_access_token], from a lookup or from [get_by_user], [id]
    and [user_id] are strings, whatever type the store keeps them in. *)
Theorem returned_identifiers_are_strings :
  forall (W : Type) (h : Handler W) (self : AuthRPC) (w : W) (m : AccessToken.t),
    ((exists u n a r, result h (create_access_token self u n a r) w = Ok m)
     \/ (exists t, result h (get self t) w = Ok (Some m))
     \/ (exists u n, result h (get_by_name self u n) w = Ok (Some m))
     \/ (exists u j, result h (get_by_jti self u j) w = Ok (Some m))
     \/ (exists u ms, result h (get_by_user self u) w = Ok ms /\ In m ms)) ->
    (exists s, AccessToken.id m = PStr s)
    /\ (exists s, AccessToken.user_id m = PStr s).
Proof.
  intros W h self w m
    [(u & n & a & r & H) | [(t & H) | [(u & n & H) | [(u & j & H)
                                                     | (u & ms & H & Hin)]]]].
  - revert H. unfold result. rewrite create_access_token_run.
    destruct (run h (access_token_or_signed self u a) w) as [[a' | e] w1];
      [ | discriminate ].
    destruct (run h (refresh_token_or_signed self u r) w1) as [[r' | e] w2];
      [ | discriminate ].
    destruct (h (storage "create" [n; u; a'; r']) w2) as [[token | e] w3];
      [ | discriminate ].
    simpl. apply message_ids_are_strings.
  - revert H. unfold result, get. simpl.
    destruct (h (storage "get" [t]) w) as [[token | e] w']; [ | discriminate ].
    intros H. apply found_some in H. now apply message_ids_are_strings in H.
  - revert H. unfold result, get_by_name. simpl.
    destruct (h (storage "get_by_name" [u; n]) w) as [[token | e] w'];
      [ | discriminate ].
    intros H. apply found_some in H. now apply message_ids_are_strings in H.
  - revert H. unfold result, get_by_jti. simpl.
    destruct (h (storage "get_by_jti" [u; j]) w) as [[token | e] w'];
      [ | discriminate ].
    intros H. apply found_some in H. now apply message_ids_are_strings in H.
  - revert H. unfold result, get_by_user. simpl.
    destruct (h (storage "get_by_user" [u]) w) as [[tokens | e] w'];
      [ | discriminate ].
    rewrite run_bind, run_lift.
    destruct (values tokens) as [vals | ]; [ | discriminate ].
    rewrite run_lift. simpl. intros H.
    destruct (messages_in _ _ _ H Hin) as (o & _ & Hm).
    now apply message_ids_are_strings in Hm.
Qed.

Lemma returned_identifiers_are_strings_witness :
  (exists s, PStr "00000000-0000-0000-0000-000000000003" = PStr s)
  /\ (exists s, PStr "00000000-0000-0000-0000-0000000000ff" = PStr s).
Proof.
  apply (returned_identifiers_are_strings World (world "issed_on") service w0
           {| AccessToken.id := PStr "00000000-0000-0000-0000-000000000003";
              AccessToken.user_id := PStr "00000000-0000-0000-0000-0000000000ff";
              AccessToken.name := PStr "laptop";
              AccessToken.access_token :=
                PStr "jwt.00000000-0000-0000-0000-000000000001";
              AccessToken.refresh_token :=
                PStr "jwt.00000000-0000-0000-0000-000000000002";
              AccessToken.revoked := PBool false;
              AccessToken.issued_on := PInt 1000;
              AccessToken.last_used_on := PNone;
              AccessToken.jti := PStr "00000000-0000-0000-0000-000000000001" |}).
  left. exists (PUUID 255), (PStr "laptop"), PNone, PNone. reflexivity.
Defined.

(** X11: when the store answers a single-record lookup with a record
    object, the lookup never returns [None]: it returns the message
    built from the object if the nine attributes are there, and
    otherwise raises [AttributeError] on the first one that is
    missing, in the order [id], [user_id], [name], [access_token],
    [refresh_token], [revoked], [issed_on], [last_used_on], [jti]. *)
Theorem found_record_is_returned_or_first_gap_raised :
  forall (W : Type) (h : Handler W) (self : AuthRPC) (w w' : W) (o : PyObj),
    let outcome :=
      match first_missing o with
      | Some a => Err (AttributeError a)
      | None =>
          match message_of (SObj o) with
          | Ok m => Ok (Some m)
          | Err e => Err e
          end
      end in
    (forall t, h (storage "get" [t]) w = (Ok (SObj o), w') ->
               run h (get self t) w = (outcome, w'))
    /\ (forall u n, h (storage "get_by_name" [u; n]) w = (Ok (SObj o), w') ->
                    run h (get_by_name self u n) w = (outcome, w'))
    /\ (forall u j, h (storage "get_by_jti" [u; j]) w = (Ok (SObj o), w') ->
                    run h (get_by_jti self u j) w = (outcome, w'))
    /\ outcome <> Ok None
    /\ (first_missing o = None -> exists m, outcome = Ok (Some m)).
Proof.
  intros W h self w w' o outcome.
  assert (Hf : run h (found (SObj o)) w' = (outcome, w')).
  { rewrite found_run. simpl. unfold outcome.
    pose proof (message_of_first_missing o) as H.
    destruct (first_missing o) as [a | ]; [ now rewrite H | reflexivity ]. }
  repeat split.
  - intros t Hh. simpl. now rewrite Hh.
  - intros u n Hh. simpl. now rewrite Hh.
  - intros u j Hh. simpl. now rewrite Hh.
  - unfold outcome. pose proof (message_of_first_missing o) as H.
    destruct (first_missing o); [ discriminate | ].
    destruct H as (m & ->). discriminate.
  - intros Hnone. unfold outcome. pose proof (message_of_first_missing o) as H.
    rewrite Hnone in *. destruct H as (m & ->). eauto.
Qed.

Lemma found_record_is_returned_or_first_gap_raised_witness :
  run spec_world (get service (PStr "t1")) w1
  = (Err (AttributeError "issed_on"), w1).
Proof.
  apply (proj1 (found_record_is_returned_or_first_gap_raised World spec_world
                  service w1 w1 (TokenStore.object_of "issued_on" r1))
           (PStr "t1")).
  reflexivity.
Defined.

(** X12: when the store answers [get_by_user] with a dictionary, the
    service returns one message per value, in the order of the
    dictionary, if every value has the nine attributes; a single value
    that lacks one makes the whole call raise.  When the store answers
    [None] the call raises [AttributeError] on [values], where the
    single-record lookups return [None]. *)
Theorem listing_keeps_order_or_fails_whole :
  forall (W : Type) (h : Handler W) (self : AuthRPC) (u : PyVal) (w w' : W),
    (forall items,
        h (storage "get_by_user" [u]) w = (Ok (SDict items), w') ->
        (forall ms,
            run h (get_by_user self u) w = (Ok ms, w') <->
            Forall2 (fun kv m => message_of (SObj (snd kv)) = Ok m) items ms)
        /\ (forall ms, run h (get_by_user self u) w = (Ok ms, w') ->
                       List.length ms = List.length items)
        /\ (forall kv e,
               In kv items -> message_of (SObj (snd kv)) = Err e ->
               exists e', run h (get_by_user self u) w = (Err e', w')))
    /\ (h (storage "get_by_user" [u]) w = (Ok SNone, w') ->
        run h (get_by_user self u) w = (Err (AttributeError "values"), w')).
Proof.
  intros W h self u w w'. split.
  2: { intros Hh. unfold get_by_user. simpl. now rewrite Hh. }
  intros items Hh.
  assert (Hrun : run h (get_by_user self u) w = (messages (map snd items), w')).
  { unfold get_by_user. simpl. rewrite Hh. simpl. apply run_lift. }
  assert (Hiff : forall ms,
             run h (get_by_user self u) w = (Ok ms, w') <->
             Forall2 (fun kv m => message_of (SObj (snd kv)) = Ok m) items ms).
  { intros ms. rewrite Hrun. split.
    - intros [= H]. apply messages_Forall2 in H.
      clear Hh Hrun. revert ms H.
      induction items as [ | kv items IH]; simpl; intros ms H; inversion H; subst;
        constructor; auto.
    - intros H. f_equal. apply messages_Forall2.
      clear Hh Hrun. induction H; simpl; constructor; auto. }
  split; [ exact Hiff | ]. split.
  - intros ms H. apply Hiff in H. symmetry. eapply Forall2_length; eauto.
  - intros kv e Hin He. rewrite Hrun.
    destruct (messages_err (map snd items) (snd kv) e) as (e' & ->); eauto.
    now apply in_map.
Qed.

Lemma listing_keeps_order_or_fails_whole_witness :
  List.length
    [ {| AccessToken.id := PStr "t1"; AccessToken.user_id := PStr "u2";
         AccessToken.name := PStr "phone"; AccessToken.access_token := PStr "a1";
         AccessToken.refresh_token := PStr "f1";
         AccessToken.revoked := PBool false; AccessToken.issued_on := PInt 10;
         AccessToken.last_used_on := PNone; AccessToken.jti := PStr "j1" |};
      {| AccessToken.id := PStr "t2"; AccessToken.user_id := PStr "u2";
         AccessToken.name := PStr "tablet"; AccessToken.access_token := PStr "a2";
         AccessToken.refresh_token := PStr "f2";
         AccessToken.revoked := PBool true; AccessToken.issued_on := PInt 20;
         AccessToken.last_used_on := PInt 30; AccessToken.jti := PStr "j2" |} ]
  = List.length [(PStr "t1", o1); (PStr "t2", o2)]
  /\ run null_world (get_by_user service (PStr "u2")) tt
     = (Err (AttributeError "values"), tt).
Proof.
  split.
  - apply (proj1 (proj2 (proj1 (listing_keeps_order_or_fails_whole World
                                  (world "issed_on") service (PStr "u2") w1 w1)
                           [(PStr "t1", o1); (PStr "t2", o2)] eq_refl))).
    reflexivity.
  - apply (proj2 (listing_keeps_order_or_fails_whole unit null_world service
                    (PStr "u2") tt tt)).
    reflexivity.
Defined.

(** ** setup.py *)

Lemma replace_removes (s : string) (old : ascii) :
  ~ In old (list_ascii_of_string (replace s old "")).
Proof.
  induction s as [ | c s IH]; simpl; auto.
  destruct (Ascii.eqb c old) eqn:Hc; simpl; auto.
  intros [-> | Hin]; auto.
  now rewrite Ascii.eqb_refl in Hc.
Qed.

Lemma str_lstrip_chars (s : string) (c : ascii) :
  In c (list_ascii_of_string (str_lstrip s)) -> In c (list_ascii_of_string s).
Proof.
  induction s as [ | d s IH]; simpl; auto.
  destruct (py_isspace d); simpl; auto.
Qed.

Lemma str_rstrip_chars (s : string) (c : ascii) :
  In c (list_ascii_of_string (str_rstrip s)) -> In c (list_ascii_of_string s).
Proof.
  induction s as [ | d s IH]; simpl; auto.
  destruct (str_rstrip s) as [ | d' s'].
  - destruct (py_isspace d); simpl; tauto.
  - simpl in *. tauto.
Qed.

Lemma str_rstrip_idem (s : string) : str_rstrip (str_rstrip s) = str_rstrip s.
Proof.
  induction s as [ | c s IH]; simpl; auto.
  destruct (str_rstrip s) as [ | d t] eqn:Ht.
  - destruct (py_isspace c) eqn:Hc; simpl; auto. now rewrite Hc.
  - change (str_rstrip (String c (String d t))) with
      (match str_rstrip (String d t) with
       | EmptyString => if py_isspace c then EmptyString else String c EmptyString
       | r' => String c r'
       end).
    now rewrite IH.
Qed.

Lemma str_lstrip_rstrip (s : string) :
  str_lstrip (str_rstrip (str_lstrip s)) = str_rstrip (str_lstrip s).
Proof.
  induction s as [ | c s IH]; simpl; auto.
  destruct (py_isspace c) eqn:Hc; auto.
  simpl. destruct (str_rstrip s); rewrite ?Hc; simpl; now rewrite ?Hc.
Qed.

Lemma strip_idem (s : string) : strip (strip s) = strip s.
Proof.
  unfold strip. now rewrite str_lstrip_rstrip, str_rstrip_idem.
Qed.

Lemma strip_chars (s : string) (c : ascii) :
  In c (list_ascii_of_string (strip s)) -> In c (list_ascii_of_string s).
Proof.
  unfold strip. intros H. now apply str_lstrip_chars, str_rstrip_chars.
Qed.

Lemma get_version_step (line : string) (rest : list string) :
  get_version_from_package (line :: rest) =
  if startswith line "__version__" then
    match partition " = " line with
    | Some (_, version) => Ok (Some (strip (replace version "'"%char "")))
    | None => Err ValueError
    end
  else get_version_from_package rest.
Proof.
  change (get_version_from_package (line :: rest)) with
    (if startswith line "__version__" then
       match split1 line " = " with
       | [token; version] => Ok (Some (strip (replace version "'"%char "")))
       | _ => Err ValueError
       end
     else get_version_from_package rest).
  destruct (startswith line "__version__"); auto.
  unfold split1. now destruct (partition " = " line) as [[a b] | ].
Qed.

(** X13: a version that [get_version_from_package] returns contains no
    single quote and has no white space at either end: stripping it
    again changes nothing. *)
Theorem version_is_unquoted_and_stripped :
  forall (lines : list string) (v : string),
    get_version_from_package lines = Ok (Some v) ->
    ~ In "'"%char (list_ascii_of_string v) /\ strip v = v.
Proof.
  induction lines as [ | line rest IH]; intros v.
  - discriminate.
  - rewrite get_version_step.
    destruct (startswith line "__version__"); auto.
    destruct (partition " = " line) as [[token version] | ]; [ | discriminate ].
    intros [= <-]. split.
    + intros Hin. apply strip_chars in Hin. now apply replace_removes in Hin.
    + apply strip_idem.
Qed.

Lemma version_is_unquoted_and_stripped_witness :
  ~ In "'"%char (list_ascii_of_string "0.1.0") /\ strip "0.1.0" = "0.1.0".
Proof.
  apply (version_is_unquoted_and_stripped
           ["# -*- coding: utf-8 -*-" ++ String "010"%char "";
            "__version__ = '0.1.0'" ++ String "010"%char ""]).
  reflexivity.
Defined.

(** X14: the first line that starts with [__version__] decides alone:
    the lines after it are not read.  If it contains [" = "] the
    version is what follows the first occurrence, without single
    quotes and stripped; if it does not, the call raises [ValueError],
    even when a later line is well formed. *)
Theorem first_version_line_decides :
  forall (earlier later : list string) (line : string),
    (forall l, In l earlier -> startswith l "__version__" = false) ->
    startswith line "__version__" = true ->
    get_version_from_package (earlier ++ line :: later)
    = match partition " = " line with
      | Some (_, version) => Ok (Some (strip (replace version "'"%char "")))
      | None => Err ValueError
      end.
Proof.
  induction earlier as [ | l earlier IH]; intros later line Hb Hl.
  - simpl app. now rewrite get_version_step, Hl.
  - simpl app. rewrite get_version_step, (Hb l (or_introl eq_refl)).
    apply IH; auto. intros l' Hin. apply Hb. now right.
Qed.

Lemma first_version_line_decides_witness :
  get_version_from_package (["import os"] ++ "__version__='1.0'" :: ["__version__ = '2.0'"])
  = match partition " = " "__version__='1.0'" with
    | Some (_, version) => Ok (Some (strip (replace version "'"%char "")))
    | None => Err ValueError
    end.
Proof.
  apply (first_version_line_decides ["import os"] ["__version__ = '2.0'"]
           "__version__='1.0'").
  - intros l [<- | []]. reflexivity.
  - reflexivity.
Defined.

(** X15: [get_version_from_package] returns [None] exactly when no
    line starts with [__version__]. *)
Theorem no_version_line_gives_none :
  forall lines : list string,
    get_version_from_package lines = Ok None <->
    (forall l, In l lines -> startswith l "__version__" = false).
Proof.
  induction lines as [ | line rest IH].
  - split; [ intros _ l [] | reflexivity ].
  - rewrite get_version_step.
    destruct (startswith line "__version__") eqn:Hl.
    + split.
      * destruct (partition " = " line) as [[token version] | ]; discriminate.
      * intros H. specialize (H line (or_introl eq_refl)). congruence.
    + rewrite IH. split.
      * intros H l [<- | Hin]; auto.
      * intros H l Hin. apply H. now right.
Qed.

(** X16: the requirements read from a file are the stripped lines that
    do not start with [#], in the order of the file; every entry is
    free of white space at both ends, and a line that starts with [#]
    gives no entry. *)
Theorem requirements_are_the_stripped_lines :
  forall lines : list string,
    (forall e, In e (requirements lines) <->
               exists l, In l lines /\ startswith l "#" = false /\ e = strip l)
    /\ (forall e, In e (requirements lines) -> strip e = e)
    /\ (forall l rest, startswith l "#" = true ->
                       requirements (l :: rest) = requirements rest)
    /\ (forall l rest, startswith l "#" = false ->
                       requirements (l :: rest) = strip l :: requirements rest).
Proof.
  intros lines. unfold requirements. repeat split.
  - intros Hin. apply in_map_iff in Hin. destruct Hin as (l & <- & Hl).
    apply filter_In in Hl. destruct Hl as [Hl Hs].
    exists l. repeat split; auto. now apply negb_true_iff.
  - intros (l & Hl & Hs & ->). apply in_map. apply filter_In.
    split; auto. now rewrite Hs.
  - intros e Hin. apply in_map_iff in Hin. destruct Hin as (l & <- & _).
    apply strip_idem.
  - intros l rest Hs. simpl. now rewrite Hs.
  - intros l rest Hs. simpl. now rewrite Hs.
Qed.

Lemma requirements_are_the_stripped_lines_witness :
  strip "flask>=1.0" = "flask>=1.0".
Proof.
  apply (proj1 (proj2 (requirements_are_the_stripped_lines
                         ["# web"; "  flask>=1.0 " ++ String "010"%char ""]))).
  in_list.
Defined.
